(** * Crypto analytics dashboard (app.py): data acquisition, KPI metrics, sentiment

    A shallow embedding of the computational core of [app.py]:

    - [generate_mock_data]  the synthetic OHLCV generator,
    - [get_coingecko_data]  the primary provider (CoinGecko OHLC endpoint),
    - [get_data]            the three-tier fallback chain,
    - [kpi_metrics]         the arithmetic of [display_kpi_metrics],
    - [Sentiment.get_sentiment]  the canned-headline sentiment score.

    Modelling conventions.

    - Python floats are idealised as exact rationals ([Q]); rounding, NaN and
      infinities are outside the model.  Comparisons of prices are therefore
      stated with [==], [<=] and [<] of [Q].
    - A [pandas.DataFrame] is its index together with a finite map from
      column names to columns ([gmap string (list Q)]).
    - Everything the program obtains from outside (HTTP replies, the Yahoo
      Finance client, the wall clock, numpy's random generator, the [random]
      module, TextBlob) is read from a [World]; the number of draws and of
      clock readings made so far is the state threaded through the code.
    - An exception is [None]; each [try ... except] of the source is the
      [match] that handles it.
    - The [st.cache_data] decorators and all rendering calls are not
      modelled. *)

From Stdlib Require Import ZArith QArith Qminmax Qround Lia Lqa String List.
From stdpp Require Import base option list strings gmap.

Open Scope Q_scope.

(** ** Python values *)

(** A naive [datetime], in microseconds since the epoch. *)
Definition datetime := Z.

(** [timedelta(days)]: the first positional argument of [timedelta] is a
    number of days. *)
Definition timedelta (days : Z) : Z := (days * 86400000000)%Z.

(** Built-in [max(a, b)] and [min(a, b)] keep the first argument unless the
    second is strictly better. *)
Definition Qltb (a b : Q) : bool := negb (Qle_bool b a).
Definition py_max (a b : Q) : Q := if Qltb a b then b else a.
Definition py_min (a b : Q) : Q := if Qltb b a then b else a.

(** [range(n, 0, -1)]. *)
Fixpoint range_down (n : nat) : list Z :=
  match n with
  | O => []
  | S k => Z.of_nat (S k) :: range_down k
  end.

(** [s.iloc[-k]] for [k >= 1]; [None] is [IndexError]. *)
Definition iloc_neg {A} (s : list A) (k : nat) : option A :=
  if decide (k <= length s)%nat then s !! (length s - k)%nat else None.

(** ** Data frames *)

Record DataFrame := {
  df_index : list datetime;
  df_columns : gmap string (list Q)
}.

(** [len(df)] is the number of rows. *)
Definition df_len (df : DataFrame) : nat := length (df_index df).

(** [df.empty]: some axis has length zero. *)
Definition df_empty (df : DataFrame) : bool :=
  bool_decide (df_len df = 0%nat) || bool_decide (size (df_columns df) = 0%nat).

(** [col in df.columns]. *)
Definition has_column (df : DataFrame) (col : string) : bool :=
  bool_decide (is_Some (df_columns df !! col)).

(** The shape invariant pandas maintains: every column is as long as the
    index. *)
Definition df_wf (df : DataFrame) : Prop :=
  forall col s, df_columns df !! col = Some s -> length s = df_len df.

(** One element of the list of dicts built by the generator. *)
Record OHLCV := {
  Open : Q;
  High : Q;
  Low : Q;
  Close : Q;
  Volume : Q
}.

(** [pd.DataFrame(data, index=dates)] for a list of such dicts. *)
Definition DataFrame_of_records (data : list OHLCV) (index : list datetime) : DataFrame :=
  {| df_index := index;
     df_columns := {[ "Open"%string := map Open data;
                      "High"%string := map High data;
                      "Low"%string := map Low data;
                      "Close"%string := map Close data;
                      "Volume"%string := map Volume data ]} |}.

(** ** The outside world *)

(** What [requests.get(url, timeout=10)], [raise_for_status()] and
    [response.json()] can do.  A decoded body is taken at the shape the
    endpoint documents, an array of arrays of numbers; the arrays may have
    any length. *)
Inductive http_reply :=
| ConnectionFailed
| TimedOut
| BadStatus (code : Z)
| UndecodableBody
| Payload (data : list (list Q)).

(** What [yf.Ticker(ticker).history(period, interval)] can do. *)
Inductive yf_reply :=
| YfRaises
| YfFrame (df : DataFrame).

Record World := {
  (** GET .../coins/{coin_id}/ohlc?vs_currency=usd&days={days}, 10 s timeout *)
  http_get : string -> Z -> http_reply;
  (** [datetime.fromtimestamp]; [None] when it raises *)
  fromtimestamp : Q -> option datetime;
  (** [yf.Ticker(ticker).history(period=..., interval=...)] *)
  yf_history : string -> string -> string -> yf_reply;
  (** the n-th reading of [datetime.now()] *)
  clock : nat -> datetime;
  (** the n-th draw of numpy's global generator, asked as [normal(mu, sigma)] *)
  np_normal : nat -> Q -> Q -> Q;
  (** the n-th draw of numpy's global generator, asked as [uniform(low, high)] *)
  np_uniform : nat -> Q -> Q -> Q
}.

Record PyState := {
  rng_calls : nat;
  clock_calls : nat
}.

(** ** A state monad for the draws and the clock *)

Definition Py (A : Type) : Type := PyState -> A * PyState.

#[global] Instance Py_ret : MRet Py := fun A (a : A) s => (a, s).
#[global] Instance Py_bind : MBind Py :=
  fun A B (f : A -> Py B) (m : Py A) s => let '(a, s') := m s in f a s'.

Definition datetime_now (w : World) : Py datetime :=
  fun s => (clock w (clock_calls s),
            {| rng_calls := rng_calls s; clock_calls := S (clock_calls s) |}).

Definition np_random_normal (w : World) (mu sigma : Q) : Py Q :=
  fun s => (np_normal w (rng_calls s) mu sigma,
            {| rng_calls := S (rng_calls s); clock_calls := clock_calls s |}).

Definition np_random_uniform (w : World) (low high : Q) : Py Q :=
  fun s => (np_uniform w (rng_calls s) low high,
            {| rng_calls := S (rng_calls s); clock_calls := clock_calls s |}).

(** ** generate_mock_data *)

Definition base_prices : gmap string Q :=
  {[ "BTC-USD"%string := 42500; "ETH-USD"%string := 2300; "SOL-USD"%string := 105 ]}.

Definition num_periods (interval : string) : nat :=
  if String.eqb interval "1d" then 365
  else if String.eqb interval "1h" then 24 * 60
  else if String.eqb interval "5m" then 24 * 12 * 7
  else 24 * 60 * 7.

(** [[datetime.now() - timedelta(periods) for periods in range(n, 0, -1)]]:
    the clock is read once per element. *)
Definition mock_dates (w : World) (n : nat) : Py (list datetime) :=
  mapM (fun periods => now ← datetime_now w; mret (now - timedelta periods)%Z)
       (range_down n).

(** One iteration of [for date in dates]: the updated running price and the
    appended dict. *)
Definition mock_step (w : World) (price : Q) : Py (Q * OHLCV) :=
  daily_return ← np_random_normal w 0.002 0.03;
  let price := price * (1 + daily_return) in
  u_open ← np_random_uniform w 0.98 1.02;
  let open_price := price * u_open in
  u_close ← np_random_uniform w 0.98 1.02;
  let close_price := price * u_close in
  u_high ← np_random_uniform w 1.0 1.02;
  let high_price := py_max open_price close_price * u_high in
  u_low ← np_random_uniform w 0.98 1.0;
  let low_price := py_min open_price close_price * u_low in
  volume ← np_random_uniform w 1e9 5e9;
  mret (price, {| Open := open_price; High := high_price; Low := low_price;
                  Close := close_price; Volume := volume |}).

(** The loop.  Each appended dict is kept beside the running price of the
    iteration that produced it; [generate_mock_data] keeps the dicts only. *)
Fixpoint mock_loop {A} (w : World) (dates : list A) (price : Q) : Py (list (Q * OHLCV)) :=
  match dates with
  | [] => mret []
  | _ :: rest =>
      pr ← mock_step w price;
      rows ← mock_loop w rest (fst pr);
      mret (pr :: rows)
  end.

Definition mock_walk (w : World) (ticker interval : string)
  : Py (list datetime * list (Q * OHLCV)) :=
  let base_price := default 1000 (base_prices !! ticker) in
  dates ← mock_dates w (num_periods interval);
  walk ← mock_loop w dates base_price;
  mret (dates, walk).

Definition generate_mock_data (w : World) (ticker period interval : string) : Py DataFrame :=
  dw ← mock_walk w ticker interval;
  mret (DataFrame_of_records (map snd (snd dw)) (fst dw)).

(** ** get_coingecko_data *)

Record Candle := {
  c_date : datetime;
  c_open : Q;
  c_high : Q;
  c_low : Q;
  c_close : Q
}.

(** One iteration of [for candle in data]: the five-way unpacking raises
    [ValueError] on any other arity, and [datetime.fromtimestamp] may raise. *)
Definition parse_candle (w : World) (candle : list Q) : option Candle :=
  match candle with
  | [timestamp_ms; open_val; high_val; low_val; close_val] =>
      date ← fromtimestamp w (timestamp_ms / 1000);
      Some {| c_date := date; c_open := open_val; c_high := high_val;
              c_low := low_val; c_close := close_val |}
  | _ => None
  end.

(** The body of the [try] up to the construction of the frame; [None] is
    either of the two outcomes that end in [return None, False]: the early
    return and an exception caught by [except Exception]. *)
Definition coingecko_candles (w : World) (coin_id : string) (days : Z)
  : option (list Candle) :=
  match http_get w coin_id days with
  | Payload data =>
      if bool_decide (data = []) || bool_decide (length data < 2)%nat
      then None
      else mapM (parse_candle w) data
  | _ => None
  end.

(** [pd.DataFrame({'Open': opens, ..., 'Volume': [...]}, index=dates)]. *)
Definition candle_frame (candles : list Candle) (volumes : list Q) : DataFrame :=
  {| df_index := map c_date candles;
     df_columns := {[ "Open"%string := map c_open candles;
                      "High"%string := map c_high candles;
                      "Low"%string := map c_low candles;
                      "Close"%string := map c_close candles;
                      "Volume"%string := volumes ]} |}.

Definition get_coingecko_data (w : World) (coin_id : string) (days : Z)
  : Py (option DataFrame * bool) :=
  match coingecko_candles w coin_id days with
  | Some candles =>
      volumes ← mapM (fun _ => np_random_uniform w 1e9 5e9) candles;
      mret (Some (candle_frame candles volumes), true)
  | None => mret (None, false)
  end.

(** ** get_data *)

Definition coingecko_map : gmap string string :=
  {[ "BTC-USD"%string := "bitcoin"%string;
     "ETH-USD"%string := "ethereum"%string;
     "SOL-USD"%string := "solana"%string ]}.

Definition period_map : gmap string string :=
  {[ "1m"%string := "7d"%string; "5m"%string := "7d"%string;
     "1h"%string := "60d"%string; "1d"%string := "1y"%string ]}.

Definition required_cols : list string :=
  ["Open"; "High"; "Low"; "Close"]%string.

(** [period_map.get(interval, "1y")]. *)
Definition lookback (interval : string) : string :=
  default "1y"%string (period_map !! interval).

(** [if coin_id:] holds for a string that is neither [None] nor empty. *)
Definition truthy_coin (coin_id : option string) : option string :=
  match coin_id with
  | Some c => if String.eqb c "" then None else Some c
  | None => None
  end.

(** The primary tier: [Some] is the early [return data, is_live]. *)
Definition try_coingecko (w : World) (ticker : string) : Py (option (DataFrame * bool)) :=
  match truthy_coin (coingecko_map !! ticker) with
  | Some coin_id =>
      r ← get_coingecko_data w coin_id 365;
      match fst r with
      | Some data => if negb (df_empty data) then mret (Some (data, snd r)) else mret None
      | None => mret None
      end
  | None => mret None
  end.

(** The secondary tier, the [try] around the Yahoo Finance call. *)
Definition try_yfinance (w : World) (ticker interval : string) : option (DataFrame * bool) :=
  let period := lookback interval in
  match yf_history w ticker period interval with
  | YfFrame data =>
      if negb (df_empty data) && forallb (has_column data) required_cols
      then Some (data, true)
      else None
  | YfRaises => None
  end.

Definition get_data (w : World) (ticker interval : string) : Py (DataFrame * bool) :=
  primary ← try_coingecko w ticker;
  match primary with
  | Some r => mret r
  | None =>
      match try_yfinance w ticker interval with
      | Some r => mret r
      | None =>
          let period := lookback interval in
          mock ← generate_mock_data w ticker period interval;
          mret (mock, false)
      end
  end.

(** ** display_kpi_metrics: the computed figures *)

(** [Series.max()] and [Series.min()]; [None] is the NaN pandas gives for an
    empty series. *)
Definition series_max (s : list Q) : option Q :=
  match s with
  | [] => None
  | x :: rest => Some (fold_left py_max rest x)
  end.

Definition series_min (s : list Q) : option Q :=
  match s with
  | [] => None
  | x :: rest => Some (fold_left py_min rest x)
  end.

(** [Series.tail(n)]. *)
Definition tail {A} (n : nat) (s : list A) : list A := drop (length s - n) s.

Record Metrics := {
  current_price : Q;
  previous_price : Q;
  price_change : Q;
  price_change_pct : Q;
  high_24h : option Q;
  low_24h : option Q
}.

(** Lines 352-358 of [display_kpi_metrics]; [None] is an exception reaching
    the function's [except] ([KeyError] for a missing column, [IndexError]
    for an empty one). *)
Definition kpi_metrics (data : DataFrame) : option Metrics :=
  closes ← df_columns data !! "Close"%string;
  current_price ← iloc_neg closes 1;
  previous_price ← (if decide (1 < df_len data)%nat
                    then iloc_neg closes 2 else Some current_price);
  let price_change := current_price - previous_price in
  let price_change_pct :=
    if negb (Qeq_bool previous_price 0)
    then price_change / previous_price * 100 else 0 in
  highs ← df_columns data !! "High"%string;
  let high_24h := if decide (24 <= df_len data)%nat
                  then series_max (tail 24 highs) else series_max highs in
  lows ← df_columns data !! "Low"%string;
  let low_24h := if decide (24 <= df_len data)%nat
                 then series_min (tail 24 lows) else series_min lows in
  Some {| current_price := current_price; previous_price := previous_price;
          price_change := price_change; price_change_pct := price_change_pct;
          high_24h := high_24h; low_24h := low_24h |}.

(** ** get_sentiment *)

Module Sentiment.

(** The three label strings, without their emoji. *)
Inductive label := BULLISH | NEUTRAL | BEARISH.

Record SentimentResult := {
  score : Q;
  s_label : label;
  headlines : list string
}.

(** What one invocation obtains from the [random] module and TextBlob. *)
Record Chance := {
  (** [random.randint(a, b)] *)
  randint : Z -> Z -> Z;
  (** the positions [random.sample] picks for a population of size [n] and
      a sample of size [k], in the order it returns them *)
  sample_positions : nat -> nat -> list nat;
  (** [TextBlob(headline).sentiment.polarity]; [None] when it raises *)
  polarity : string -> option Q
}.

Definition mock_headlines : list string := [
  "Bitcoin rallies as institutional investors show strong interest";
  "Ethereum network upgrade improves transaction efficiency significantly";
  "Solana addresses scalability concerns with latest protocol update";
  "Cryptocurrency market shows signs of recovery and stability";
  "New regulatory framework could boost crypto adoption";
  "Market volatility raises concerns among traders";
  "Technical analysis indicates potential breakout patterns";
  "Experts remain optimistic about long-term crypto potential"
]%string.

(** [random.sample(population, k)]; [ValueError] when [k] is negative or
    larger than the population. *)
Definition random_sample (c : Chance) (population : list string) (k : Z)
  : option (list string) :=
  if decide (0 <= k <= Z.of_nat (length population))%Z
  then mapM (fun i => population !! i)
            (sample_positions c (length population) (Z.to_nat k))
  else None.

(** Built-in [sum]. *)
Definition py_sum (s : list Q) : Q := fold_left Qplus s 0.

(** [sum(s) / len(s)]; [ZeroDivisionError] on an empty list. *)
Definition average (s : list Q) : option Q :=
  if decide (length s = 0%nat) then None
  else Some (py_sum s / inject_Z (Z.of_nat (length s))).

Definition label_of (sentiment_percentage : Q) : label :=
  if Qle_bool 60 sentiment_percentage then BULLISH
  else if Qle_bool 40 sentiment_percentage then NEUTRAL
  else BEARISH.

(** The body of the [try]. *)
Definition analyse (c : Chance) : option SentimentResult :=
  selected_headlines ← random_sample c mock_headlines (randint c 3 5);
  sentiment_scores ← mapM (polarity c) selected_headlines;
  avg_sentiment ← average sentiment_scores;
  let sentiment_percentage := ((avg_sentiment + 1) / 2) * 100 in
  Some {| score := sentiment_percentage;
          s_label := label_of sentiment_percentage;
          headlines := selected_headlines |}.

(** The dict returned by the [except] branch. *)
Definition fallback : SentimentResult :=
  {| score := 50; s_label := NEUTRAL; headlines := [] |}.

Definition get_sentiment (c : Chance) : SentimentResult :=
  match analyse c with
  | Some r => r
  | None => fallback
  end.

(** What the library documents of the three sources. *)
Definition randint_in_range (c : Chance) : Prop :=
  forall a b, (a <= b)%Z -> (a <= randint c a b <= b)%Z.

Definition sample_without_replacement (c : Chance) : Prop :=
  forall n k, (k <= n)%nat ->
    length (sample_positions c n k) = k /\
    NoDup (sample_positions c n k) /\
    Forall (fun i => (i < n)%nat) (sample_positions c n k).

Definition polarity_in_range (c : Chance) : Prop :=
  forall headline p, polarity c headline = Some p -> -1 <= p /\ p <= 1.

(** A sample invocation: three headlines, the first three of the pool,
    each of polarity one half. *)
Definition steady : Chance :=
  {| randint := fun a _ => a;
     sample_positions := fun _ k => seq 0 k;
     polarity := fun _ => Some 0.5 |}.

(** An invocation in which TextBlob raises. *)
Definition broken : Chance :=
  {| randint := randint steady;
     sample_positions := sample_positions steady;
     polarity := fun _ => None |}.

End Sentiment.

(** ** Assumptions on the outside world *)

(** [np.random.uniform(low, high)] lies between its bounds. *)
Definition uniform_in_range (w : World) : Prop :=
  forall i low high, low <= high ->
    low <= np_uniform w i low high /\ np_uniform w i low high <= high.

(** Between two consecutive readings the wall clock never steps back by a
    day or more. *)
Definition clock_steady (w : World) : Prop :=
  forall n, (clock w n - timedelta 1 < clock w (S n))%Z.

(** [df[col].iloc[i]] for [i >= 0]. *)
Definition df_at (df : DataFrame) (col : string) (i : nat) : option Q :=
  s ← df_columns df !! col; s !! i.

(** [win] is the last [n] rows of [s] when [s] has that many, and the whole
    of [s] otherwise. *)
Definition last_rows {A} (n : nat) (s win : list A) : Prop :=
  ((n <= length s)%nat -> length win = n /\ exists before, s = before ++ win) /\
  ((length s < n)%nat -> win = s).

(** [x] is a greatest (least) element of [s]. *)
Definition is_max_of (x : Q) (s : list Q) : Prop :=
  x ∈ s /\ forall y, y ∈ s -> y <= x.

Definition is_min_of (x : Q) (s : list Q) : Prop :=
  x ∈ s /\ forall y, y ∈ s -> x <= y.

(** ** Outcomes of the two providers, as seen by [get_data] *)

(** The primary provider fails: the call [get_data] makes for this ticker,
    if it makes one, returns [(None, False)]. *)
Definition primary_fails (w : World) (ticker : string) (s : PyState) : Prop :=
  forall coin_id, coingecko_map !! ticker = Some coin_id ->
    fst (get_coingecko_data w coin_id 365 s) = (None, false).

(** The secondary provider succeeds with [df]: a non-empty frame that has
    the four OHLC columns. *)
Definition secondary_succeeds (w : World) (ticker interval : string) (df : DataFrame) : Prop :=
  yf_history w ticker (lookback interval) interval = YfFrame df /\
  df_empty df = false /\
  forall col, col ∈ required_cols -> is_Some (df_columns df !! col).

Definition secondary_fails (w : World) (ticker interval : string) : Prop :=
  forall df, ~ secondary_succeeds w ticker interval df.

(** The tickers and intervals the sidebar offers. *)
Definition supported_ticker (ticker : string) : Prop :=
  ticker ∈ ["BTC-USD"; "ETH-USD"; "SOL-USD"]%string.

Definition supported_interval (interval : string) : Prop :=
  interval ∈ ["1m"; "5m"; "1h"; "1d"]%string.

(** The request itself failed: no connection, a timeout, an error status, or
    a body that does not decode. *)
Definition request_failed (reply : http_reply) : Prop :=
  match reply with
  | Payload _ => False
  | _ => True
  end.

(** A candle the parser accepts. *)
Definition well_formed_candle (w : World) (candle : list Q) : Prop :=
  exists t o h l c, candle = [t; o; h; l; c] /\ is_Some (fromtimestamp w (t / 1000)).

(** ** Sample worlds and states *)

Definition fresh : PyState := {| rng_calls := 0; clock_calls := 0 |}.

(** No provider answers; the drift draws are all [0] and every uniform draw
    is its lower bound. *)
Definition offline : World :=
  {| http_get := fun _ _ => TimedOut;
     fromtimestamp := fun t => Some (Qfloor (t * 1000000));
     yf_history := fun _ _ _ => YfRaises;
     clock := fun n => (1700000000000000 + Z.of_nat n)%Z;
     np_normal := fun _ _ _ => 0;
     np_uniform := fun _ low _ => low |}.

(** A frame with one row per given close, with flat candles. *)
Definition flat_frame (closes : list Q) : DataFrame :=
  {| df_index := map (fun i => timedelta (Z.of_nat i)) (seq 0 (length closes));
     df_columns := {[ "Open"%string := closes; "High"%string := closes;
                      "Low"%string := closes; "Close"%string := closes;
                      "Volume"%string := map (fun _ => 1e9) closes ]} |}.

(** The primary provider times out and Yahoo Finance answers with [df]. *)
Definition yahoo_only (df : DataFrame) : World :=
  {| http_get := http_get offline;
     fromtimestamp := fromtimestamp offline;
     yf_history := fun _ _ _ => YfFrame df;
     clock := clock offline;
     np_normal := np_normal offline;
     np_uniform := np_uniform offline |}.

(** The primary provider answers with [data]. *)
Definition coingecko_up (data : list (list Q)) : World :=
  {| http_get := fun _ _ => Payload data;
     fromtimestamp := fromtimestamp offline;
     yf_history := yf_history offline;
     clock := clock offline;
     np_normal := np_normal offline;
     np_uniform := np_uniform offline |}.

(** ** display_kpi_metrics: the colour indicator (line 361) *)

(** The two emoji of [change_color]. *)
Inductive indicator := Green | Red.

(** ["🟢" if price_change_pct > 0 else "🔴"]. *)
Definition change_color (price_change_pct : Q) : indicator :=
  if Qltb 0 price_change_pct then Green else Red.

(** ** main: the colour of the sentiment score (line 552) *)

(** ["#06FFA5" if score >= 60 else "#FF0040" if score < 40 else "#FFD700"]. *)
Definition sentiment_color (score : Q) : string :=
  if Qle_bool 60 score then "#06FFA5"
  else if Qltb score 40 then "#FF0040"
  else "#FFD700".

(** ** main: the auto-refresh block (lines 445-473) *)

Definition interval_map : gmap string Q :=
  {[ "30s"%string := 30; "60s"%string := 60;
     "120s"%string := 120; "300s"%string := 300 ]}.

(** [interval_map.get(refresh_option, 60)]. *)
Definition refresh_seconds (refresh_option : string) : Q :=
  default 60 (interval_map !! refresh_option).

(** [int(x)] of a float: truncation toward zero. *)
Definition py_int (x : Q) : Z := (Qnum x ÷ Zpos (Qden x))%Z.

(** How the block leaves the script run.  [st.rerun()] halts the run, so
    nothing after it is executed. *)
Inductive run_end :=
| RefreshRerun                      (** stamp, [st.cache_data.clear()], [st.rerun()] *)
| CountdownRerun (remaining : Z)    (** caption, [time.sleep(1)], [st.rerun()] *)
| Continue.                         (** the run goes on to the rest of [main] *)

(** [st.session_state], restricted to the key [last_refresh] this block
    reads and writes, and the number of [time.time()] readings made so far. *)
Record RefreshState := {
  last_refresh : option Q;
  time_calls : nat
}.

Definition auto_refresh (time_time : nat -> Q) (auto_refresh_enabled : bool)
    (refresh_option : string) (st : RefreshState) : run_end * RefreshState :=
  let refresh_sec := refresh_seconds refresh_option in
  if auto_refresh_enabled then
    let '(last, calls) :=
      match last_refresh st with
      | Some last => (last, time_calls st)
      | None => (time_time (time_calls st), S (time_calls st))
      end in
    let current_time := time_time calls in
    let elapsed := current_time - last in
    if Qle_bool refresh_sec elapsed
    then (RefreshRerun, {| last_refresh := Some current_time; time_calls := S calls |})
    else (CountdownRerun (py_int (refresh_sec - elapsed)),
          {| last_refresh := Some last; time_calls := S calls |})
  else (Continue, st).

(** ** Further assumptions and sample inputs *)

(** The columns of every frame the program builds itself. *)
Definition ohlcv_columns : list string :=
  ["Open"; "High"; "Low"; "Close"; "Volume"]%string.

(** [w] with another HTTP endpoint. *)
Definition with_http_get (w : World) (get : string -> Z -> http_reply) : World :=
  {| http_get := get;
     fromtimestamp := fromtimestamp w;
     yf_history := yf_history w;
     clock := clock w;
     np_normal := np_normal w;
     np_uniform := np_uniform w |}.

(** [w] with another Yahoo Finance client. *)
Definition with_yf_history (w : World)
    (history : string -> string -> string -> yf_reply) : World :=
  {| http_get := http_get w;
     fromtimestamp := fromtimestamp w;
     yf_history := history;
     clock := clock w;
     np_normal := np_normal w;
     np_uniform := np_uniform w |}.

(** Every frame the Yahoo Finance client returns has the shape pandas
    maintains. *)
Definition yf_frames_wf (w : World) : Prop :=
  forall ticker period interval df,
    yf_history w ticker period interval = YfFrame df -> df_wf df.

(** In every row the Close lies between the Low and the High. *)
Definition close_within_range (lows closes highs : list Q) : Prop :=
  forall i l c h,
    lows !! i = Some l -> closes !! i = Some c -> highs !! i = Some h ->
    l <= c /\ c <= h.

(** [time.time()] never runs backwards. *)
Definition time_monotone (time_time : nat -> Q) : Prop :=
  forall n m, (n <= m)%nat -> time_time n <= time_time m.

(** Two well-formed candles, one minute apart. *)
Definition two_candles : list (list Q) :=
  [[1700000000000; 100; 110; 90; 105]; [1700000060000; 105; 120; 100; 115]].

(** The frame the primary provider builds from [two_candles] when every
    volume draw is [1e9]. *)
Definition two_candles_frame : DataFrame :=
  candle_frame
    [{| c_date := 1700000000000000%Z; c_open := 100; c_high := 110;
        c_low := 90; c_close := 105 |};
     {| c_date := 1700000060000000%Z; c_open := 105; c_high := 120;
        c_low := 100; c_close := 115 |}]
    [1e9; 1e9].

(** A clock that advances by a quarter of a second per reading. *)
Definition quarter_seconds (n : nat) : Q := inject_Z (Z.of_nat n) / 4.

(** The figures of [kpi_metrics], computed from the last 24 entries of the
    Close, High and Low columns alone. *)
Definition kpi_of_recent (closes highs lows : option (list Q)) : option Metrics :=
  closes ← closes;
  current_price ← iloc_neg closes 1;
  previous_price ← iloc_neg closes 2;
  highs ← highs;
  lows ← lows;
  Some {| current_price := current_price; previous_price := previous_price;
          price_change := current_price - previous_price;
          price_change_pct :=
            if negb (Qeq_bool previous_price 0)
            then (current_price - previous_price) / previous_price * 100 else 0;
          high_24h := series_max highs; low_24h := series_min lows |}.

(** Thirty rows: a given first close followed by the closes 1 to 29. *)
Definition month_frame (first : Q) : DataFrame :=
  flat_frame (first :: map (fun i => inject_Z (Z.of_nat i)) (seq 1 29)).

(** The stamp kept in the session state is not later than the next reading
    of [time.time()]. *)
Definition stamp_in_past (time_time : nat -> Q) (st : RefreshState) : Prop :=
  forall last, last_refresh st = Some last -> last <= time_time (time_calls st).

(** The positions and headlines one invocation of [get_sentiment] samples. *)
Definition sampled_positions (c : Sentiment.Chance) : list nat :=
  Sentiment.sample_positions c (length Sentiment.mock_headlines)
    (Z.to_nat (Sentiment.randint c 3 5)).

(** An endpoint that answers the one request for bitcoin over 365 days with
    [two_candles] and fails on every other request. *)
Definition bitcoin_year_only (coin_id : string) (days : Z) : http_reply :=
  if bool_decide (coin_id = "bitcoin"%string) && (days =? 365)%Z
  then Payload two_candles else ConnectionFailed.

(** A session stamped at time 0, eight readings of the clock ago. *)
Definition stamped : RefreshState := {| last_refresh := Some 0; time_calls := 8 |}.

(** * Properties *)

(** ** Comparisons and the built-in max and min *)

Lemma Qltb_lt (a b : Q) : Qltb a b = true <-> a < b.
Proof.
  unfold Qltb. rewrite negb_true_iff. split.
  - intros H. apply Qnot_le_lt. intros Hle.
    apply Qle_bool_iff in Hle. congruence.
  - intros H. destruct (Qle_bool b a) eqn:E; [|reflexivity].
    apply Qle_bool_iff in E. lra.
Qed.

Lemma Qltb_ge (a b : Q) : Qltb a b = false <-> b <= a.
Proof.
  unfold Qltb. rewrite negb_false_iff. apply Qle_bool_iff.
Qed.

Lemma py_max_cases (a b : Q) :
  (a < b /\ py_max a b = b) \/ (b <= a /\ py_max a b = a).
Proof.
  unfold py_max. destruct (Qltb a b) eqn:E.
  - left. split; [by apply Qltb_lt|done].
  - right. split; [by apply Qltb_ge|done].
Qed.

Lemma py_min_cases (a b : Q) :
  (b < a /\ py_min a b = b) \/ (a <= b /\ py_min a b = a).
Proof.
  unfold py_min. destruct (Qltb b a) eqn:E.
  - left. split; [by apply Qltb_lt|done].
  - right. split; [by apply Qltb_ge|done].
Qed.

Lemma py_max_ub (a b : Q) : a <= py_max a b /\ b <= py_max a b.
Proof. destruct (py_max_cases a b) as [[? ->]|[? ->]]; split; lra. Qed.

Lemma py_min_lb (a b : Q) : py_min a b <= a /\ py_min a b <= b.
Proof. destruct (py_min_cases a b) as [[? ->]|[? ->]]; split; lra. Qed.

Lemma py_min_le_max (a b : Q) : py_min a b <= py_max a b.
Proof.
  pose proof (py_max_ub a b). pose proof (py_min_lb a b). lra.
Qed.

Lemma Qmult_pos (a b : Q) : 0 < a -> 0 < b -> 0 < a * b.
Proof.
  intros Ha Hb. nra.
Qed.

Lemma Qscale_up (x u : Q) : 0 <= x -> 1 <= u -> x <= x * u.
Proof.
  intros Hx Hu.
  assert (0 <= x * (u - 1)) by (apply Qmult_le_0_compat; lra).
  lra.
Qed.

Lemma Qscale_down (x u : Q) : 0 <= x -> u <= 1 -> x * u <= x.
Proof.
  intros Hx Hu.
  assert (0 <= x * (1 - u)) by (apply Qmult_le_0_compat; lra).
  lra.
Qed.

(** ** The synthetic generator *)

Section Generator.

Variable w : World.

Lemma mock_dates_run (n : nat) (s : PyState) :
  mock_dates w n s =
    (map (fun i => (clock w (clock_calls s + i) - timedelta (Z.of_nat (n - i)))%Z)
         (seq 0 n),
     {| rng_calls := rng_calls s; clock_calls := clock_calls s + n |}).
Proof.
  unfold mock_dates. revert s. induction n as [|n IH]; intros s.
  - cbn. destruct s; cbn. by rewrite Nat.add_0_r.
  - cbn [range_down mapM]. unfold mbind at 1, Py_bind.
    unfold mbind at 1, Py_bind. unfold datetime_now at 1.
    unfold mret at 1, Py_ret.
    unfold mbind at 1, Py_bind. rewrite IH. cbn [clock_calls rng_calls].
    unfold mret, Py_ret. f_equal.
    + cbn [seq map]. f_equal.
      * by rewrite Nat.add_0_r, Nat.sub_0_r.
      * rewrite <- seq_shift, map_map. apply map_ext. intros i.
        by replace (S (clock_calls s) + i)%nat with (clock_calls s + S i)%nat by lia.
    + f_equal. lia.
Qed.

Lemma mock_step_run (price : Q) (s : PyState) :
  mock_step w price s =
    let i := rng_calls s in
    let p := price * (1 + np_normal w i 0.002 0.03) in
    let o := p * np_uniform w (S i) 0.98 1.02 in
    let c := p * np_uniform w (S (S i)) 0.98 1.02 in
    ((p, {| Open := o;
            High := py_max o c * np_uniform w (S (S (S i))) 1.0 1.02;
            Low := py_min o c * np_uniform w (S (S (S (S i)))) 0.98 1.0;
            Close := c;
            Volume := np_uniform w (S (S (S (S (S i))))) 1e9 5e9 |}),
     {| rng_calls := 6 + i; clock_calls := clock_calls s |}).
Proof. reflexivity. Qed.

Lemma mock_loop_cons {A} (d : A) (rest : list A) (price : Q) (s : PyState) :
  mock_loop w (d :: rest) price s =
    (fst (mock_step w price s)
       :: fst (mock_loop w rest (fst (fst (mock_step w price s))) (snd (mock_step w price s))),
     snd (mock_loop w rest (fst (fst (mock_step w price s))) (snd (mock_step w price s)))).
Proof.
  cbn [mock_loop]. unfold mbind at 1, Py_bind.
  destruct (mock_step w price s) as [pr s1]. cbn [fst snd].
  unfold mbind, Py_bind.
  destruct (mock_loop w rest pr.1 s1) as [rows s2]. reflexivity.
Qed.

Lemma mock_loop_length {A} (dates : list A) (price : Q) (s : PyState) :
  length (fst (mock_loop w dates price s)) = length dates.
Proof.
  revert price s. induction dates as [|d rest IH]; intros price s.
  - reflexivity.
  - rewrite mock_loop_cons. cbn [fst length]. by rewrite IH.
Qed.

(** A property of every iteration, carried along the loop by an invariant
    of the running price. *)
Lemma mock_loop_Forall {A} (Inv : Q -> Prop) (P : Q * OHLCV -> Prop) :
  (forall price s, Inv price ->
     Inv (fst (fst (mock_step w price s))) /\ P (fst (mock_step w price s))) ->
  forall (dates : list A) price s,
    Inv price -> Forall P (fst (mock_loop w dates price s)).
Proof.
  intros Hstep dates. induction dates as [|d rest IH]; intros price s Hinv.
  - constructor.
  - rewrite mock_loop_cons. cbn [fst].
    destruct (Hstep price s Hinv) as [Hinv' HP].
    constructor; [exact HP|]. by apply IH.
Qed.

Lemma generate_mock_data_run (ticker period interval : string) (s : PyState) :
  fst (generate_mock_data w ticker period interval s) =
    DataFrame_of_records
      (map snd (snd (fst (mock_walk w ticker interval s))))
      (fst (fst (mock_walk w ticker interval s))).
Proof.
  unfold generate_mock_data. unfold mbind, Py_bind.
  by destruct (mock_walk w ticker interval s) as [[dates walk] s1].
Qed.

Lemma mock_walk_run (ticker interval : string) (s : PyState) :
  fst (mock_walk w ticker interval s) =
    (fst (mock_dates w (num_periods interval) s),
     fst (mock_loop w (fst (mock_dates w (num_periods interval) s))
                    (default 1000 (base_prices !! ticker))
                    (snd (mock_dates w (num_periods interval) s)))).
Proof.
  unfold mock_walk. unfold mbind at 1, Py_bind.
  destruct (mock_dates w (num_periods interval) s) as [dates s1].
  unfold mbind, Py_bind. cbn [fst snd].
  by destruct (mock_loop w dates _ s1) as [walk s2].
Qed.

Lemma mock_dates_length (n : nat) (s : PyState) :
  length (fst (mock_dates w n s)) = n.
Proof. rewrite mock_dates_run. cbn [fst]. by rewrite length_map, length_seq. Qed.

Lemma generate_mock_data_len (ticker period interval : string) (s : PyState) :
  df_len (fst (generate_mock_data w ticker period interval s)) = num_periods interval.
Proof.
  rewrite generate_mock_data_run, mock_walk_run. unfold df_len. cbn [fst df_index DataFrame_of_records].
  apply mock_dates_length.
Qed.

End Generator.

Lemma DataFrame_of_records_at (data : list OHLCV) (index : list datetime) (i : nat) :
  df_at (DataFrame_of_records data index) "Open" i = Open <$> data !! i /\
  df_at (DataFrame_of_records data index) "High" i = High <$> data !! i /\
  df_at (DataFrame_of_records data index) "Low" i = Low <$> data !! i /\
  df_at (DataFrame_of_records data index) "Close" i = Close <$> data !! i.
Proof.
  unfold df_at, DataFrame_of_records. cbn [df_columns].
  repeat split; (etrans; [|apply list_lookup_fmap]); reflexivity.
Qed.

Section GeneratorRows.

Variable w : World.
Hypothesis Huniform : uniform_in_range w.

(** Each row the loop appends, read against the running price of its
    iteration. *)
Lemma mock_step_ohlc (price : Q) (s : PyState) :
  let pr := fst (mock_step w price s) in
  0 < fst pr ->
  0 < Open (snd pr) /\ 0 < Close (snd pr) /\
  0 < Low (snd pr) /\ 0 < High (snd pr) /\
  Low (snd pr) <= py_min (Open (snd pr)) (Close (snd pr)) /\
  py_max (Open (snd pr)) (Close (snd pr)) <= High (snd pr).
Proof.
  rewrite mock_step_run. cbn zeta. cbn [fst snd Open Close Low High].
  set (p := price * _).
  generalize (Huniform (S (rng_calls s)) 0.98 1.02 ltac:(lra)).
  generalize (Huniform (S (S (rng_calls s))) 0.98 1.02 ltac:(lra)).
  generalize (Huniform (S (S (S (rng_calls s)))) 1.0 1.02 ltac:(lra)).
  generalize (Huniform (S (S (S (S (rng_calls s))))) 0.98 1.0 ltac:(lra)).
  generalize (np_uniform w (S (rng_calls s)) 0.98 1.02).
  generalize (np_uniform w (S (S (rng_calls s))) 0.98 1.02).
  generalize (np_uniform w (S (S (S (rng_calls s)))) 1.0 1.02).
  generalize (np_uniform w (S (S (S (S (rng_calls s))))) 0.98 1.0).
  intros ul uh uc uo [Hl1 Hl2] [Hh1 Hh2] [Hc1 Hc2] [Ho1 Ho2] Hp.
  assert (Hopen : 0 < p * uo) by (apply Qmult_pos; lra).
  assert (Hclose : 0 < p * uc) by (apply Qmult_pos; lra).
  assert (Hmax : 0 < py_max (p * uo) (p * uc))
    by (pose proof (py_max_ub (p * uo) (p * uc)); lra).
  assert (Hmin : 0 < py_min (p * uo) (p * uc))
    by (destruct (py_min_cases (p * uo) (p * uc)) as [[_ ->]|[_ ->]]; assumption).
  repeat split; try assumption.
  - apply Qmult_pos; lra.
  - apply Qmult_pos; lra.
  - apply Qscale_down; lra.
  - apply Qscale_up; lra.
Qed.

End GeneratorRows.

Section GeneratorFrame.

Variable w : World.

Lemma clock_steady_gap (c d : nat) :
  clock_steady w ->
  (clock w c - timedelta (Z.of_nat d) <= clock w (c + d))%Z /\
  ((0 < d)%nat -> (clock w c - timedelta (Z.of_nat d) < clock w (c + d))%Z).
Proof.
  intros Hclock. unfold timedelta. induction d as [|d [IHle _]].
  - rewrite Nat.add_0_r. split; lia.
  - pose proof (Hclock (c + d)%nat) as Hstep. unfold timedelta in Hstep.
    replace (c + S d)%nat with (S (c + d)) by lia. split; lia.
Qed.

Lemma mock_dates_increasing (n : nat) (s : PyState) (i j : nat) (a b : datetime) :
  clock_steady w -> (i < j)%nat ->
  fst (mock_dates w n s) !! i = Some a ->
  fst (mock_dates w n s) !! j = Some b ->
  (a < b)%Z.
Proof.
  intros Hclock Hij. rewrite mock_dates_run. cbn [fst].
  rewrite !list_lookup_fmap.
  intros Ha Hb.
  destruct (seq 0 n !! i) as [i'|] eqn:Ei; [|discriminate].
  destruct (seq 0 n !! j) as [j'|] eqn:Ej; [|discriminate].
  apply lookup_seq in Ei as [-> Hi]. apply lookup_seq in Ej as [-> Hj].
  cbn in Ha, Hb. injection Ha as <-. injection Hb as <-.
  destruct (clock_steady_gap (clock_calls s + i) (j - i) Hclock) as [_ Hlt].
  specialize (Hlt ltac:(lia)).
  replace (clock_calls s + i + (j - i))%nat with (clock_calls s + j)%nat in Hlt by lia.
  unfold timedelta in *. lia.
Qed.

End GeneratorFrame.

Lemma offline_clock_steady : clock_steady offline.
Proof. intros n. cbn. unfold timedelta. lia. Qed.

Lemma offline_uniform_in_range : uniform_in_range offline.
Proof. intros i low high H. cbn. split; lra. Qed.

Lemma mock_walk_ohlc (w : World) (ticker interval : string) (s : PyState) :
  uniform_in_range w ->
  Forall (fun pr : Q * OHLCV =>
            0 < fst pr ->
            Low (snd pr) <= py_min (Open (snd pr)) (Close (snd pr)) /\
            py_max (Open (snd pr)) (Close (snd pr)) <= High (snd pr))
         (snd (fst (mock_walk w ticker interval s))).
Proof.
  intros Huniform. rewrite mock_walk_run. cbn [snd].
  apply (mock_loop_Forall w (fun _ => True)); [|exact I].
  intros price s1 _. split; [exact I|]. intros Hp.
  pose proof (mock_step_ohlc w Huniform price s1 Hp). tauto.
Qed.

Lemma py_max_Qmax (a b : Q) : py_max a b == Qmax a b.
Proof.
  destruct (py_max_cases a b) as [[H ->]|[H ->]];
    destruct (Q.max_spec a b) as [[H' E]|[H' E]]; lra.
Qed.

Lemma py_min_Qmin (a b : Q) : py_min a b == Qmin a b.
Proof.
  destruct (py_min_cases a b) as [[H ->]|[H ->]];
    destruct (Q.min_spec a b) as [[H' E]|[H' E]]; lra.
Qed.

(** C10: in every row of the synthetic series whose running price is
    positive, [Low <= min(Open, Close) <= max(Open, Close) <= High], the
    uniform draws lying within their bounds. *)
Theorem generate_mock_data_ohlc_invariant
    (w : World) (ticker period interval : string) (s : PyState) (i : nat) (p : Q) :
  uniform_in_range w ->
  map fst (snd (fst (mock_walk w ticker interval s))) !! i = Some p ->
  0 < p ->
  let df := fst (generate_mock_data w ticker period interval s) in
  exists o h l c,
    df_at df "Open" i = Some o /\ df_at df "High" i = Some h /\
    df_at df "Low" i = Some l /\ df_at df "Close" i = Some c /\
    l <= Qmin o c /\ Qmin o c <= Qmax o c /\ Qmax o c <= h.
Proof.
  intros Huniform Hi Hp df. subst df. rewrite generate_mock_data_run.
  pose proof (mock_walk_ohlc w ticker interval s Huniform) as Hall.
  set (walk := snd (fst (mock_walk w ticker interval s))) in *.
  rewrite list_lookup_fmap in Hi.
  destruct (walk !! i) as [[p' r]|] eqn:Er; [|discriminate].
  cbn in Hi. injection Hi as ->.
  rewrite Forall_lookup in Hall. specialize (Hall i (p, r) Er Hp).
  cbn [fst snd] in Hall. destruct Hall as [Hlow Hhigh].
  destruct (DataFrame_of_records_at (map snd walk) (fst (fst (mock_walk w ticker interval s))) i)
    as (Eo & Eh & El & Ec).
  rewrite list_lookup_fmap, Er in Eo, Eh, El, Ec. cbn in Eo, Eh, El, Ec.
  exists (Open r), (High r), (Low r), (Close r).
  repeat split; try assumption.
  - by rewrite <- py_min_Qmin.
  - apply Q.min_le_iff. left. apply Q.le_max_l.
  - by rewrite <- py_max_Qmax.
Qed.

Lemma generate_mock_data_ohlc_invariant_witness :
  uniform_in_range offline /\
  map fst (snd (fst (mock_walk offline "SOL-USD" "1d" fresh))) !! 7%nat = Some 105 /\
  0 < 105 /\
  let df := fst (generate_mock_data offline "SOL-USD" "1y" "1d" fresh) in
  exists o h l c,
    df_at df "Open" 7 = Some o /\ df_at df "High" 7 = Some h /\
    df_at df "Low" 7 = Some l /\ df_at df "Close" 7 = Some c /\
    l <= Qmin o c /\ Qmin o c <= Qmax o c /\ Qmax o c <= h.
Proof.
  split; [exact offline_uniform_in_range|].
  split; [vm_compute; reflexivity|].
  split; [reflexivity|].
  apply (generate_mock_data_ohlc_invariant offline "SOL-USD" "1y" "1d" fresh 7 105).
  - exact offline_uniform_in_range.
  - vm_compute. reflexivity.
  - reflexivity.
Defined.

(** ** The primary provider *)

Lemma mapM_None_Exists {A B} (f : A -> option B) (l : list A) :
  mapM f l = None -> Exists (fun x => f x = None) l.
Proof.
  induction l as [|x l IH]; cbn; [discriminate|].
  destruct (f x) as [y|] eqn:Ex; cbn.
  - intros H. apply Exists_cons_tl, IH.
    by destruct (mapM f l).
  - intros _. by apply Exists_cons_hd.
Qed.

Section Providers.

Variable w : World.

Lemma uniform_draws_run {A} (low high : Q) (l : list A) (s : PyState) :
  mapM (fun _ => np_random_uniform w low high) l s =
    (map (fun i => np_uniform w (rng_calls s + i) low high) (seq 0 (length l)),
     {| rng_calls := rng_calls s + length l; clock_calls := clock_calls s |}).
Proof.
  revert s. induction l as [|x l IH]; intros s.
  - cbn. destruct s; cbn. by rewrite Nat.add_0_r.
  - cbn [mapM length]. unfold mbind at 1, Py_bind.
    unfold np_random_uniform at 1.
    unfold mbind at 1, Py_bind. rewrite IH. cbn [rng_calls clock_calls].
    unfold mret, Py_ret. f_equal.
    + cbn [seq map]. f_equal.
      * by rewrite Nat.add_0_r.
      * rewrite <- seq_shift, map_map. apply map_ext. intros i.
        by replace (S (rng_calls s) + i)%nat with (rng_calls s + S i)%nat by lia.
    + f_equal. lia.
Qed.

Lemma get_coingecko_data_cases (coin_id : string) (days : Z) (s : PyState) :
  (coingecko_candles w coin_id days = None /\
   get_coingecko_data w coin_id days s = ((None, false), s)) \/
  (exists candles volumes,
     coingecko_candles w coin_id days = Some candles /\
     length volumes = length candles /\
     fst (get_coingecko_data w coin_id days s) =
       (Some (candle_frame candles volumes), true)).
Proof.
  unfold get_coingecko_data.
  destruct (coingecko_candles w coin_id days) as [candles|].
  - right. unfold mbind, Py_bind. rewrite uniform_draws_run.
    eexists candles, _. split; [reflexivity|]. split; [|reflexivity].
    by rewrite length_map, length_seq.
  - left. split; reflexivity.
Qed.

Lemma coingecko_candles_Some (coin_id : string) (days : Z) (candles : list Candle) :
  coingecko_candles w coin_id days = Some candles ->
  exists data,
    http_get w coin_id days = Payload data /\
    (2 <= length data)%nat /\
    Forall2 (fun candle c => parse_candle w candle = Some c) data candles.
Proof.
  unfold coingecko_candles.
  destruct (http_get w coin_id days) as [| |code| |data]; try discriminate.
  destruct (bool_decide (data = []) || bool_decide (length data < 2)%nat) eqn:E;
    [discriminate|].
  apply orb_false_iff in E as [_ E]. apply bool_decide_eq_false in E.
  intros H. apply mapM_Some in H. exists data. split; [done|]. split; [lia|done].
Qed.

Lemma coingecko_candles_None (coin_id : string) (days : Z) :
  coingecko_candles w coin_id days = None <->
  (forall data, http_get w coin_id days <> Payload data) \/
  (exists data, http_get w coin_id days = Payload data /\
     ((length data < 2)%nat \/ Exists (fun candle => parse_candle w candle = None) data)).
Proof.
  unfold coingecko_candles.
  destruct (http_get w coin_id days) as [| |code| |data] eqn:Ereply;
    try (split; [intros _; left; intros data; discriminate | done]).
  destruct (bool_decide (data = []) || bool_decide (length data < 2)%nat) eqn:E.
  - split; [intros _|done]. right. exists data. split; [done|]. left.
    apply orb_true_iff in E as [E|E].
    + apply bool_decide_eq_true in E. subst data. cbn. lia.
    + by apply bool_decide_eq_true in E.
  - apply orb_false_iff in E as [_ E]. apply bool_decide_eq_false in E.
    split.
    + intros Hnone. right. exists data. split; [done|]. right.
      by apply mapM_None_Exists.
    + intros [Hno|(data' & Hd & [Hlt|Hex])].
      * by destruct (Hno data).
      * injection Hd as <-. lia.
      * injection Hd as <-.
        destruct (mapM (parse_candle w) data) as [cs|] eqn:Em; [|done].
        exfalso.
        assert (Hall : Forall (is_Some ∘ parse_candle w) data)
          by (apply mapM_is_Some; eauto).
        apply Exists_exists in Hex as (candle & Hin & Hnone).
        rewrite Forall_forall in Hall. specialize (Hall candle Hin).
        cbn in Hall. rewrite Hnone in Hall. by destruct Hall.
Qed.

End Providers.

Lemma parse_candle_None (w : World) (candle : list Q) :
  parse_candle w candle = None <-> ~ well_formed_candle w candle.
Proof.
  unfold well_formed_candle. split.
  - intros Hnone (t & o & h & l & c & -> & [d Hd]).
    cbn in Hnone. by rewrite Hd in Hnone.
  - intros Hno.
    destruct candle as [|t [|o [|h [|l [|c [|x rest]]]]]]; try reflexivity.
    cbn. destruct (fromtimestamp w (t / 1000)) as [d|] eqn:Ed; [|reflexivity].
    exfalso. apply Hno. exists t, o, h, l, c. split; [reflexivity|]. rewrite Ed. eauto.
Qed.

Lemma candle_frame_at (candles : list Candle) (volumes : list Q) (i : nat) :
  df_at (candle_frame candles volumes) "Open" i = c_open <$> candles !! i /\
  df_at (candle_frame candles volumes) "High" i = c_high <$> candles !! i /\
  df_at (candle_frame candles volumes) "Low" i = c_low <$> candles !! i /\
  df_at (candle_frame candles volumes) "Close" i = c_close <$> candles !! i.
Proof.
  unfold df_at, candle_frame. cbn [df_columns].
  repeat split; (etrans; [|apply list_lookup_fmap]); reflexivity.
Qed.

(** C5, as amended: the call returns [(None, False)] exactly when the request
    fails, the array has fewer than two elements, or some element is not a
    five-element candle whose timestamp converts; otherwise it returns
    [True] with a frame that has one row per candle, holding the candle's
    converted timestamp and its open, high, low and close. *)
Theorem get_coingecko_data_failure_iff
    (w : World) (coin_id : string) (days : Z) (s : PyState) :
  let r := fst (get_coingecko_data w coin_id days s) in
  (r = (None, false) <->
     request_failed (http_get w coin_id days) \/
     exists data, http_get w coin_id days = Payload data /\
       ((length data < 2)%nat \/
        Exists (fun candle => ~ well_formed_candle w candle) data)) /\
  (r <> (None, false) ->
     exists data df,
       http_get w coin_id days = Payload data /\ r = (Some df, true) /\
       df_len df = length data /\
       forall i t o h l c, data !! i = Some [t; o; h; l; c] ->
         df_index df !! i = fromtimestamp w (t / 1000) /\
         df_at df "Open" i = Some o /\ df_at df "High" i = Some h /\
         df_at df "Low" i = Some l /\ df_at df "Close" i = Some c).
Proof.
  intros r. subst r.
  assert (Hfail : coingecko_candles w coin_id days = None <->
            request_failed (http_get w coin_id days) \/
            exists data, http_get w coin_id days = Payload data /\
              ((length data < 2)%nat \/
               Exists (fun candle => ~ well_formed_candle w candle) data)).
  { rewrite coingecko_candles_None. split.
    - intros [Hno|(data & Hd & Hbad)].
      + left. destruct (http_get w coin_id days); try exact I. by destruct (Hno data).
      + right. exists data. split; [done|]. destruct Hbad as [?|Hex]; [by left|right].
        eapply Exists_impl; [exact Hex|]. intros candle. apply parse_candle_None.
    - intros [Hreq|(data & Hd & Hbad)].
      + left. intros data Hd. by rewrite Hd in Hreq.
      + right. exists data. split; [done|]. destruct Hbad as [?|Hex]; [by left|right].
        eapply Exists_impl; [exact Hex|]. intros candle. apply parse_candle_None. }
  destruct (get_coingecko_data_cases w coin_id days s)
    as [[Hnone Hrun]|(candles & volumes & Hsome & Hlen & Hrun)].
  - rewrite Hrun. cbn [fst]. split; [|done].
    split; [intros _; by apply Hfail|done].
  - rewrite Hrun. split.
    + split; [discriminate|]. intros H. apply Hfail in H. congruence.
    + intros _. apply coingecko_candles_Some in Hsome as (data & Hd & Hlen2 & Hparse).
      exists data, (candle_frame candles volumes).
      split; [done|]. split; [done|].
      split. { unfold df_len. cbn. rewrite length_map. symmetry. by eapply Forall2_length. }
      intros i t o h l c Hi.
      destruct (Forall2_lookup_l _ _ _ _ _ Hparse Hi) as (cd & Hcd & Hp).
      cbn in Hp. destruct (fromtimestamp w (t / 1000)) as [d|]; [|discriminate].
      cbn in Hp. injection Hp as <-.
      destruct (candle_frame_at candles volumes i) as (Eo & Eh & El & Ec).
      rewrite Hcd in Eo, Eh, El, Ec.
      split. { cbn [candle_frame df_index]. by rewrite list_lookup_fmap, Hcd. }
      done.
Qed.

(** C5, at a concrete input: a reply of two four-element candles is no
    request error and has length 2, and the call still returns
    [(None, False)]. *)
Lemma get_coingecko_data_failure_counterexample :
  let w := coingecko_up [[1; 2; 3; 4]; [5; 6; 7; 8]] in
  fst (get_coingecko_data w "bitcoin" 365 fresh) = (None, false) /\
  exists data, http_get w "bitcoin" 365 = Payload data /\
               ~ request_failed (http_get w "bitcoin" 365) /\
               data <> [] /\ ~ (length data < 2)%nat.
Proof.
  cbn zeta. split; [reflexivity|].
  eexists. split; [reflexivity|]. cbn. split; [tauto|]. split; [discriminate|lia].
Qed.

(** ** The fallback chain *)

Lemma coingecko_map_truthy (ticker : string) :
  truthy_coin (coingecko_map !! ticker) = coingecko_map !! ticker.
Proof.
  unfold coingecko_map.
  destruct (decide (ticker = "BTC-USD"%string)) as [->|?]; [done|].
  destruct (decide (ticker = "ETH-USD"%string)) as [->|?]; [done|].
  destruct (decide (ticker = "SOL-USD"%string)) as [->|?]; [done|].
  rewrite !lookup_insert_ne by done. by rewrite lookup_singleton_ne by done.
Qed.

Lemma candle_frame_not_empty (candles : list Candle) (volumes : list Q) :
  (2 <= length candles)%nat -> df_empty (candle_frame candles volumes) = false.
Proof.
  intros Hlen. unfold df_empty, df_len. cbn [candle_frame df_index df_columns].
  rewrite length_map. apply orb_false_iff. split.
  - apply bool_decide_eq_false. lia.
  - apply bool_decide_eq_false. rewrite map_size_empty_iff.
    apply insert_non_empty.
Qed.

Lemma num_periods_ge (interval : string) : (365 <= num_periods interval)%nat.
Proof.
  unfold num_periods.
  repeat match goal with |- context [String.eqb ?a ?b] => destruct (String.eqb a b) end; lia.
Qed.

Section Chain.

Variable w : World.

Lemma try_coingecko_cases (ticker : string) (s : PyState) :
  (primary_fails w ticker s /\ try_coingecko w ticker s = (None, s)) \/
  (~ primary_fails w ticker s /\
   exists coin_id df,
     coingecko_map !! ticker = Some coin_id /\
     fst (get_coingecko_data w coin_id 365 s) = (Some df, true) /\
     fst (try_coingecko w ticker s) = Some (df, true) /\
     (2 <= df_len df)%nat).
Proof.
  unfold try_coingecko, primary_fails. rewrite coingecko_map_truthy.
  destruct (coingecko_map !! ticker) as [coin_id|]; [|left; split; done].
  unfold mbind, Py_bind.
  destruct (get_coingecko_data_cases w coin_id 365 s)
    as [[Hnone Hrun]|(candles & volumes & Hsome & Hlen & Hrun)].
  - left. rewrite Hrun. cbn. split; [|done]. intros c [= <-]. by rewrite Hrun.
  - right. split.
    { intros H. specialize (H coin_id eq_refl). congruence. }
    exists coin_id, (candle_frame candles volumes).
    apply coingecko_candles_Some in Hsome as (data & _ & Hlen2 & Hparse).
    apply Forall2_length in Hparse.
    split; [done|]. split; [done|].
    destruct (get_coingecko_data w coin_id 365 s) as [r s1].
    cbn [fst] in Hrun. subst r. cbn [fst snd].
    rewrite candle_frame_not_empty by lia. cbn.
    split; [done|]. unfold df_len. cbn. rewrite length_map. lia.
Qed.

Lemma try_yfinance_Some (ticker interval : string) (r : DataFrame * bool) :
  try_yfinance w ticker interval = Some r <->
  secondary_succeeds w ticker interval (fst r) /\ snd r = true.
Proof.
  unfold try_yfinance, secondary_succeeds. cbn zeta.
  destruct (yf_history w ticker (lookback interval) interval) as [|data].
  - split; [discriminate|]. by intros [[? _] _].
  - destruct (df_empty data) eqn:Eempty; cbn [negb andb].
    + split; [discriminate|]. intros [([= <-] & ? & _) _]. congruence.
    + destruct (forallb (has_column data) required_cols) eqn:Ecols.
      * split.
        -- intros [= <-]. cbn. split; [|done]. split; [done|]. split; [done|].
           intros col Hcol. rewrite forallb_forall in Ecols.
           apply list_elem_of_In in Hcol. specialize (Ecols col Hcol).
           by apply bool_decide_eq_true in Ecols.
        -- destruct r as [df live]. cbn. intros [([= <-] & _) ->]. done.
      * split; [discriminate|]. intros [([= <-] & _ & Hcols) _].
        exfalso. apply not_true_iff_false in Ecols. apply Ecols.
        apply forallb_forall. intros col Hcol. apply bool_decide_eq_true.
        apply Hcols. by apply list_elem_of_In.
Qed.

Lemma try_yfinance_None (ticker interval : string) :
  try_yfinance w ticker interval = None <-> secondary_fails w ticker interval.
Proof.
  unfold secondary_fails. split.
  - intros Hnone df Hsucc.
    assert (try_yfinance w ticker interval = Some (df, true)) by (by apply try_yfinance_Some).
    congruence.
  - intros Hfail. destruct (try_yfinance w ticker interval) as [r|] eqn:E; [|done].
    apply try_yfinance_Some in E as [Hs _]. by destruct (Hfail (fst r)).
Qed.

Lemma get_data_run (ticker interval : string) (s : PyState) :
  fst (get_data w ticker interval s) =
    match fst (try_coingecko w ticker s) with
    | Some r => r
    | None =>
        match try_yfinance w ticker interval with
        | Some r => r
        | None =>
            (fst (generate_mock_data w ticker (lookback interval) interval
                    (snd (try_coingecko w ticker s))), false)
        end
    end.
Proof.
  unfold get_data. unfold mbind at 1, Py_bind.
  destruct (try_coingecko w ticker s) as [[r|] s1]; cbn [fst snd]; [done|].
  destruct (try_yfinance w ticker interval) as [r|]; [done|].
  unfold mbind, Py_bind.
  by destruct (generate_mock_data w ticker (lookback interval) interval s1).
Qed.

(** The three ways [get_data] returns. *)
Lemma get_data_cases (ticker interval : string) (s : PyState) :
  let r := fst (get_data w ticker interval s) in
  (~ primary_fails w ticker s /\
   (exists coin_id, coingecko_map !! ticker = Some coin_id /\
      fst (get_coingecko_data w coin_id 365 s) = (Some (fst r), true)) /\
   snd r = true /\ (2 <= df_len (fst r))%nat) \/
  (primary_fails w ticker s /\ secondary_succeeds w ticker interval (fst r) /\
   snd r = true) \/
  (primary_fails w ticker s /\ secondary_fails w ticker interval /\
   r = (fst (generate_mock_data w ticker (lookback interval) interval s), false)).
Proof.
  cbn zeta. rewrite get_data_run.
  destruct (try_coingecko_cases ticker s)
    as [[Hfail Hrun]|(Hok & coin_id & df & Hcoin & Hcall & Hrun & Hlen)].
  - rewrite Hrun. cbn [fst snd].
    destruct (try_yfinance w ticker interval) as [r|] eqn:Ey.
    + right. left. by apply try_yfinance_Some in Ey as [Hs Hl].
    + right. right. by apply try_yfinance_None in Ey.
  - left. rewrite Hrun. cbn [fst snd]. split; [done|]. split; [|done].
    by exists coin_id.
Qed.

End Chain.

Lemma offline_primary_fails (w : World) (ticker : string) (s : PyState) :
  (forall coin_id days, http_get w coin_id days = TimedOut) ->
  primary_fails w ticker s.
Proof.
  intros Hdown coin_id _. unfold get_coingecko_data, coingecko_candles.
  by rewrite Hdown.
Qed.

Lemma offline_secondary_fails (ticker interval : string) :
  secondary_fails offline ticker interval.
Proof. intros df [H _]. discriminate H. Qed.

Lemma yahoo_only_succeeds (closes : list Q) (ticker interval : string) :
  closes <> [] ->
  secondary_succeeds (yahoo_only (flat_frame closes)) ticker interval (flat_frame closes).
Proof.
  intros Hne. split; [reflexivity|]. split.
  - unfold df_empty, df_len, flat_frame. cbn [df_index df_columns].
    rewrite length_map, length_seq. apply orb_false_iff. split.
    + apply bool_decide_eq_false. destruct closes; [done|]. cbn. lia.
    + apply bool_decide_eq_false. rewrite map_size_empty_iff. apply insert_non_empty.
  - intros col Hcol. unfold required_cols in Hcol.
    repeat (apply elem_of_cons in Hcol as [->|Hcol]; [by eexists|]).
    by apply elem_of_nil in Hcol.
Qed.

(** C1, as amended: [get_data] always returns, with a series of at least
    one row and a boolean flag; the series has at least two rows unless it
    is the reply of the secondary provider, which is returned as it is. *)
Theorem get_data_returns_nonempty
    (w : World) (ticker interval : string) (s : PyState) :
  let r := fst (get_data w ticker interval s) in
  (1 <= df_len (fst r))%nat /\
  (snd r = true \/ snd r = false) /\
  ((2 <= df_len (fst r))%nat \/
   yf_history w ticker (lookback interval) interval = YfFrame (fst r)).
Proof.
  intros r. subst r.
  destruct (get_data_cases w ticker interval s)
    as [(_ & _ & Hlive & Hlen)|[(_ & Hsucc & Hlive)|(_ & _ & Hmock)]].
  - split; [lia|]. split; [by left|by left].
  - destruct Hsucc as (Hreply & Hempty & _).
    split; [|split; [by left|by right]].
    unfold df_empty in Hempty. apply orb_false_iff in Hempty as [Hrows _].
    apply bool_decide_eq_false in Hrows. lia.
  - rewrite Hmock. cbn [fst snd]. rewrite generate_mock_data_len.
    pose proof (num_periods_ge interval). split; [lia|]. split; [by right|left; lia].
Qed.

(** C1, at a concrete input: for BTC-USD at interval 1d, with the primary
    provider timing out and the secondary answering with one row, the
    returned series has fewer than two rows. *)
Lemma get_data_length_counterexample :
  supported_ticker "BTC-USD" /\ supported_interval "1d" /\
  (df_len (fst (fst (get_data (yahoo_only (flat_frame [100%Q])) "BTC-USD" "1d" fresh))) < 2)%nat.
Proof.
  split; [|split].
  - apply list_elem_of_here.
  - do 3 apply list_elem_of_further. apply list_elem_of_here.
  - vm_compute. lia.
Qed.

(** C2, as amended: the flag is false exactly when both providers failed,
    that is when the synthetic generator supplied the series; a series
    supplied by the secondary provider carries [is_live = True]. *)
Theorem get_data_is_live_false_iff
    (w : World) (ticker interval : string) (s : PyState) :
  snd (fst (get_data w ticker interval s)) = false <->
  primary_fails w ticker s /\ secondary_fails w ticker interval.
Proof.
  destruct (get_data_cases w ticker interval s)
    as [(Hok & _ & Hlive & _)|[(_ & Hsucc & Hlive)|(Hp & Hs & Hmock)]].
  - rewrite Hlive. split; [discriminate|]. by intros [? _].
  - rewrite Hlive. split; [discriminate|]. intros [_ Hfail]. by destruct (Hfail _ Hsucc).
  - rewrite Hmock. done.
Qed.

(** C2, at a concrete input: the primary provider fails, the secondary
    supplies a two-row frame, and the flag is true. *)
Lemma get_data_is_live_counterexample :
  let w := yahoo_only (flat_frame [100; 110]) in
  primary_fails w "BTC-USD" fresh /\
  secondary_succeeds w "BTC-USD" "1d" (flat_frame [100; 110]) /\
  snd (fst (get_data w "BTC-USD" "1d" fresh)) = true.
Proof.
  cbn zeta. split; [|split].
  - by apply offline_primary_fails.
  - by apply yahoo_only_succeeds.
  - vm_compute. reflexivity.
Qed.

(** C3: when the primary provider fails and the secondary succeeds,
    [get_data] returns the secondary provider's frame with
    [is_live = True]. *)
Theorem get_data_secondary_is_live
    (w : World) (ticker interval : string) (s : PyState) (df : DataFrame) :
  primary_fails w ticker s ->
  secondary_succeeds w ticker interval df ->
  fst (get_data w ticker interval s) = (df, true).
Proof.
  intros Hprimary Hsecondary. rewrite get_data_run.
  destruct (try_coingecko_cases w ticker s) as [[_ Hrun]|[Hok _]]; [|done].
  rewrite Hrun. cbn [fst].
  assert (Hy : try_yfinance w ticker interval = Some (df, true))
    by (by apply try_yfinance_Some).
  by rewrite Hy.
Qed.

Lemma get_data_secondary_is_live_witness :
  let w := yahoo_only (flat_frame [100; 110; 121]) in
  primary_fails w "ETH-USD" fresh /\
  secondary_succeeds w "ETH-USD" "1h" (flat_frame [100; 110; 121]) /\
  fst (get_data w "ETH-USD" "1h" fresh) = (flat_frame [100; 110; 121], true).
Proof.
  cbn zeta.
  assert (Hp : primary_fails (yahoo_only (flat_frame [100; 110; 121])) "ETH-USD" fresh)
    by (by apply offline_primary_fails).
  assert (Hs : secondary_succeeds (yahoo_only (flat_frame [100; 110; 121]))
                 "ETH-USD" "1h" (flat_frame [100; 110; 121]))
    by (by apply yahoo_only_succeeds).
  split; [exact Hp|]. split; [exact Hs|].
  exact (get_data_secondary_is_live _ "ETH-USD" "1h" fresh _ Hp Hs).
Defined.

(** C4: when both providers fail, [get_data] returns [is_live = False] with
    the synthetic series, whose length is 365 for "1d", 1440 for "1h", 2016
    for "5m" and 10080 for any other interval. *)
Theorem get_data_both_fail_mock
    (w : World) (ticker interval : string) (s : PyState) :
  primary_fails w ticker s ->
  secondary_fails w ticker interval ->
  let r := fst (get_data w ticker interval s) in
  r = (fst (generate_mock_data w ticker (lookback interval) interval s), false) /\
  (interval = "1d"%string -> Z.of_nat (df_len (fst r)) = 365%Z) /\
  (interval = "1h"%string -> Z.of_nat (df_len (fst r)) = 1440%Z) /\
  (interval = "5m"%string -> Z.of_nat (df_len (fst r)) = 2016%Z) /\
  (interval ∉ ["1d"; "1h"; "5m"]%string -> Z.of_nat (df_len (fst r)) = 10080%Z).
Proof.
  intros Hprimary Hsecondary r. subst r.
  destruct (get_data_cases w ticker interval s)
    as [(Hok & _)|[(_ & Hsucc & _)|(_ & _ & Hmock)]];
    [done|by destruct (Hsecondary _ Hsucc)|].
  rewrite Hmock. cbn [fst]. rewrite generate_mock_data_len.
  split; [done|]. unfold num_periods. repeat split.
  - intros ->. reflexivity.
  - intros ->. reflexivity.
  - intros ->. reflexivity.
  - intros Hother. rewrite !not_elem_of_cons in Hother.
    destruct Hother as (H1d & H1h & H5m & _).
    destruct (String.eqb_spec interval "1d") as [?|_]; [done|].
    destruct (String.eqb_spec interval "1h") as [?|_]; [done|].
    destruct (String.eqb_spec interval "5m") as [?|_]; [done|].
    reflexivity.
Qed.

Lemma get_data_both_fail_mock_witness :
  primary_fails offline "BTC-USD" fresh /\
  secondary_fails offline "BTC-USD" "1d" /\
  let r := fst (get_data offline "BTC-USD" "1d" fresh) in
  r = (fst (generate_mock_data offline "BTC-USD" (lookback "1d") "1d" fresh), false) /\
  ("1d" = "1d" -> Z.of_nat (df_len (fst r)) = 365%Z) /\
  ("1d" = "1h" -> Z.of_nat (df_len (fst r)) = 1440%Z) /\
  ("1d" = "5m" -> Z.of_nat (df_len (fst r)) = 2016%Z) /\
  ("1d" ∉ ["1d"; "1h"; "5m"] -> Z.of_nat (df_len (fst r)) = 10080%Z).
Proof.
  assert (Hp : primary_fails offline "BTC-USD" fresh)
    by (by apply offline_primary_fails).
  split; [exact Hp|]. split; [exact (offline_secondary_fails "BTC-USD" "1d")|].
  exact (get_data_both_fail_mock offline "BTC-USD" "1d" fresh Hp
           (offline_secondary_fails "BTC-USD" "1d")).
Defined.

(** ** KPI metrics *)

Lemma fold_py_max (rest : list Q) (x : Q) :
  is_max_of (fold_left py_max rest x) (x :: rest).
Proof.
  revert x. induction rest as [|y rest IH]; intros x.
  - cbn. split; [apply list_elem_of_here|]. intros z Hz. apply list_elem_of_singleton in Hz as ->. lra.
  - cbn [fold_left]. destruct (IH (py_max x y)) as [Hin Hub].
    pose proof (py_max_ub x y) as [Hx Hy]. split.
    + apply elem_of_cons in Hin as [->|Hin].
      * destruct (py_max_cases x y) as [[_ ->]|[_ ->]];
          [apply list_elem_of_further|]; apply list_elem_of_here.
      * by do 2 apply list_elem_of_further.
    + intros z Hz.
      assert (Hm : py_max x y <= fold_left py_max rest (py_max x y)) by (apply Hub, list_elem_of_here).
      apply elem_of_cons in Hz as [->|Hz]; [lra|].
      apply elem_of_cons in Hz as [->|Hz]; [lra|].
      by apply Hub, list_elem_of_further.
Qed.

Lemma fold_py_min (rest : list Q) (x : Q) :
  is_min_of (fold_left py_min rest x) (x :: rest).
Proof.
  revert x. induction rest as [|y rest IH]; intros x.
  - cbn. split; [apply list_elem_of_here|]. intros z Hz. apply list_elem_of_singleton in Hz as ->. lra.
  - cbn [fold_left]. destruct (IH (py_min x y)) as [Hin Hlb].
    pose proof (py_min_lb x y) as [Hx Hy]. split.
    + apply elem_of_cons in Hin as [->|Hin].
      * destruct (py_min_cases x y) as [[_ ->]|[_ ->]];
          [apply list_elem_of_further|]; apply list_elem_of_here.
      * by do 2 apply list_elem_of_further.
    + intros z Hz.
      assert (Hm : fold_left py_min rest (py_min x y) <= py_min x y) by (apply Hlb, list_elem_of_here).
      apply elem_of_cons in Hz as [->|Hz]; [lra|].
      apply elem_of_cons in Hz as [->|Hz]; [lra|].
      by apply Hlb, list_elem_of_further.
Qed.

Lemma series_max_spec (s : list Q) :
  s <> [] -> exists x, series_max s = Some x /\ is_max_of x s.
Proof.
  destruct s as [|x rest]; [done|]. intros _. eexists. split; [reflexivity|].
  apply fold_py_max.
Qed.

Lemma series_min_spec (s : list Q) :
  s <> [] -> exists x, series_min s = Some x /\ is_min_of x s.
Proof.
  destruct s as [|x rest]; [done|]. intros _. eexists. split; [reflexivity|].
  apply fold_py_min.
Qed.

Lemma tail_last_rows {A} (n : nat) (s : list A) :
  (n <= length s)%nat -> last_rows n s (tail n s).
Proof.
  intros Hn. unfold last_rows, tail. split; [|lia]. intros _. split.
  - rewrite length_drop. lia.
  - exists (take (length s - n) s). by rewrite take_drop.
Qed.

Lemma whole_last_rows {A} (n : nat) (s : list A) :
  (length s < n)%nat -> last_rows n s s.
Proof. intros Hn. unfold last_rows. split; [lia|done]. Qed.

Lemma iloc_neg_last {A} (s : list A) : iloc_neg s 1 = last s.
Proof.
  unfold iloc_neg. rewrite last_lookup. destruct s as [|x s]; [done|].
  rewrite decide_True by (cbn; lia). f_equal. cbn. lia.
Qed.

Lemma iloc_neg_app {A} (before : list A) (p c : A) :
  iloc_neg (before ++ [p; c]) 2 = Some p.
Proof.
  unfold iloc_neg. rewrite length_app. cbn [length].
  rewrite decide_True by lia.
  replace (length before + 2 - 2)%nat with (length before + 0)%nat by lia.
  by rewrite lookup_app_r, Nat.add_0_r, Nat.sub_diag by lia.
Qed.

Section Metrics.

Variable data : DataFrame.
Variables closes highs lows : list Q.
Hypothesis Hwf : df_wf data.
Hypothesis Hrows : (1 <= df_len data)%nat.
Hypothesis Hclose : df_columns data !! "Close"%string = Some closes.
Hypothesis Hhigh : df_columns data !! "High"%string = Some highs.
Hypothesis Hlow : df_columns data !! "Low"%string = Some lows.

(** The record [kpi_metrics] returns on a non-empty frame. *)
Lemma kpi_metrics_run :
  exists current previous,
    last closes = Some current /\
    (if decide (1 < length closes)%nat
     then iloc_neg closes 2 = Some previous else previous = current) /\
    kpi_metrics data =
      Some {| current_price := current;
              previous_price := previous;
              price_change := current - previous;
              price_change_pct :=
                if negb (Qeq_bool previous 0)
                then (current - previous) / previous * 100 else 0;
              high_24h := if decide (24 <= length highs)%nat
                          then series_max (tail 24 highs) else series_max highs;
              low_24h := if decide (24 <= length lows)%nat
                         then series_min (tail 24 lows) else series_min lows |}.
Proof.
  pose proof (Hwf _ _ Hclose) as Lc. pose proof (Hwf _ _ Hhigh) as Lh.
  pose proof (Hwf _ _ Hlow) as Ll.
  unfold kpi_metrics. rewrite Hclose, Hhigh, Hlow. cbn [mbind option_bind].
  rewrite iloc_neg_last, Lh, Ll, <- Lc.
  destruct (last closes) as [current|] eqn:Elast.
  2:{ apply last_None in Elast. subst closes. cbn in Lc. lia. }
  cbn [mbind option_bind].
  destruct (decide (1 < length closes)%nat) as [Hlong|Hshort].
  - assert (Hprev : is_Some (iloc_neg closes 2)).
    { unfold iloc_neg. rewrite decide_True by lia. apply lookup_lt_is_Some. lia. }
    destruct Hprev as [previous Hprev]. rewrite Hprev. cbn [mbind option_bind].
    by exists current, previous.
  - cbn [mbind option_bind]. by exists current, current.
Qed.

End Metrics.

(** C6: on a non-empty series the current price is the last Close, the
    previous price is the Close before it (the current price itself on a
    single row), and the percentage change is
    [(current - previous) / previous * 100], or [0] when the previous price
    is [0]; closes 100 then 110 give 10, and a single row gives 0. *)
Theorem kpi_metrics_price_change (data : DataFrame) (closes : list Q) :
  df_wf data -> (1 <= df_len data)%nat ->
  df_columns data !! "Close"%string = Some closes ->
  is_Some (df_columns data !! "High"%string) ->
  is_Some (df_columns data !! "Low"%string) ->
  exists m, kpi_metrics data = Some m /\
    last closes = Some (current_price m) /\
    (forall c, closes = [c] -> previous_price m = c) /\
    (forall before p c, closes = before ++ [p; c] -> previous_price m = p) /\
    (previous_price m == 0 -> price_change_pct m = 0) /\
    (~ previous_price m == 0 ->
       price_change_pct m =
         (current_price m - previous_price m) / previous_price m * 100) /\
    (forall c, closes = [c] -> price_change_pct m == 0) /\
    (closes = [100; 110] -> price_change_pct m == 10).
Proof.
  intros Hwf Hrows Hclose [highs Hhigh] [lows Hlow].
  destruct (kpi_metrics_run data closes highs lows Hwf Hrows Hclose Hhigh Hlow)
    as (current & previous & Hcur & Hprev & Hrun).
  eexists. split; [exact Hrun|]. cbn [current_price previous_price price_change_pct].
  assert (Hsingle : forall c, closes = [c] -> current = c /\ previous = c).
  { intros c ->. rewrite decide_False in Hprev by (cbn; lia).
    cbn in Hcur. injection Hcur as <-. by subst previous. }
  assert (Hpair : forall before p c, closes = before ++ [p; c] -> current = c /\ previous = p).
  { intros before p c ->. rewrite decide_True in Hprev by (rewrite length_app; cbn; lia).
    rewrite iloc_neg_app in Hprev. injection Hprev as <-.
    change (before ++ [p; c]) with (before ++ [p] ++ [c]) in Hcur.
    rewrite app_assoc, last_snoc in Hcur. by injection Hcur as <-. }
  split; [exact Hcur|].
  split; [intros c Hc; by destruct (Hsingle c Hc)|].
  split; [intros before p c Hc; by destruct (Hpair before p c Hc)|].
  split; [|split; [|split]].
  - intros Hzero. apply Qeq_bool_iff in Hzero. by rewrite Hzero.
  - intros Hnz. destruct (Qeq_bool previous 0) eqn:E; [|done].
    apply Qeq_bool_iff in E. by destruct Hnz.
  - intros c Hc. destruct (Hsingle c Hc) as [-> ->].
    destruct (Qeq_bool c 0) eqn:E; cbn [negb]; [reflexivity|].
    apply Qeq_bool_neq in E. field. exact E.
  - intros Hc. destruct (Hpair [] 100 110 Hc) as [-> ->]. reflexivity.
Qed.

Lemma flat_frame_wf (closes : list Q) : df_wf (flat_frame closes).
Proof.
  intros col s. unfold flat_frame, df_len. cbn [df_columns df_index].
  rewrite length_map, length_seq. intros H.
  repeat (apply lookup_insert_Some in H as [[_ <-]|[_ H]]; [done|]).
  apply lookup_singleton_Some in H as [_ <-]. by rewrite length_map.
Qed.

Lemma kpi_metrics_price_change_witness :
  df_wf (flat_frame [100; 110]) /\ (1 <= df_len (flat_frame [100%Q; 110%Q]))%nat /\
  df_columns (flat_frame [100; 110]) !! "Close"%string = Some [100; 110] /\
  is_Some (df_columns (flat_frame [100; 110]) !! "High"%string) /\
  is_Some (df_columns (flat_frame [100; 110]) !! "Low"%string) /\
  exists m, kpi_metrics (flat_frame [100; 110]) = Some m /\
    last [100; 110] = Some (current_price m) /\
    (forall c, [100; 110] = [c] -> previous_price m = c) /\
    (forall before p c, [100; 110] = before ++ [p; c] -> previous_price m = p) /\
    (previous_price m == 0 -> price_change_pct m = 0) /\
    (~ previous_price m == 0 ->
       price_change_pct m =
         (current_price m - previous_price m) / previous_price m * 100) /\
    (forall c, [100; 110] = [c] -> price_change_pct m == 0) /\
    ([100; 110] = [100; 110] -> price_change_pct m == 10).
Proof.
  split; [apply flat_frame_wf|]. split; [cbn; lia|]. split; [reflexivity|].
  split; [by eexists|]. split; [by eexists|].
  apply (kpi_metrics_price_change (flat_frame [100; 110]) [100; 110]).
  - apply flat_frame_wf.
  - cbn. lia.
  - reflexivity.
  - by eexists.
  - by eexists.
Defined.

(** C7: on a non-empty series the 24-period high is a greatest element of
    the High column and the 24-period low a least element of the Low column,
    each over the last 24 rows when the series has at least 24 rows and over
    the whole column otherwise. *)
Theorem kpi_metrics_high_low (data : DataFrame) (highs lows : list Q) :
  df_wf data -> (1 <= df_len data)%nat ->
  is_Some (df_columns data !! "Close"%string) ->
  df_columns data !! "High"%string = Some highs ->
  df_columns data !! "Low"%string = Some lows ->
  exists m hi lo high_rows low_rows,
    kpi_metrics data = Some m /\
    high_24h m = Some hi /\ low_24h m = Some lo /\
    last_rows 24 highs high_rows /\ last_rows 24 lows low_rows /\
    is_max_of hi high_rows /\ is_min_of lo low_rows.
Proof.
  intros Hwf Hrows [closes Hclose] Hhigh Hlow.
  destruct (kpi_metrics_run data closes highs lows Hwf Hrows Hclose Hhigh Hlow)
    as (current & previous & _ & _ & Hrun).
  pose proof (Hwf _ _ Hhigh) as Lh. pose proof (Hwf _ _ Hlow) as Ll.
  assert (Hwin : forall s : list Q, (1 <= length s)%nat ->
            exists win, last_rows 24 s win /\ win <> [] /\
              (if decide (24 <= length s)%nat then tail 24 s else s) = win).
  { intros s Hs. destruct (decide (24 <= length s)%nat) as [Hlong|Hshort].
    - exists (tail 24 s). split; [by apply tail_last_rows|]. split; [|done].
      intros Hnil. apply (f_equal length) in Hnil. unfold tail in Hnil.
      rewrite length_drop in Hnil. cbn in Hnil. lia.
    - exists s. split; [apply whole_last_rows; lia|]. split; [|done].
      intros ->. cbn in Hs. lia. }
  destruct (Hwin highs ltac:(lia)) as (high_rows & Hhr & Hhne & Eh).
  destruct (Hwin lows ltac:(lia)) as (low_rows & Hlr & Hlne & El).
  destruct (series_max_spec high_rows Hhne) as (hi & Ehi & Hhi).
  destruct (series_min_spec low_rows Hlne) as (lo & Elo & Hlo).
  eexists _, hi, lo, high_rows, low_rows. split; [exact Hrun|].
  cbn [high_24h low_24h].
  split. { rewrite <- Ehi, <- Eh. by destruct (decide (24 <= length highs)%nat). }
  split. { rewrite <- Elo, <- El. by destruct (decide (24 <= length lows)%nat). }
  done.
Qed.

Lemma kpi_metrics_high_low_witness :
  df_wf (flat_frame [100; 110; 90]) /\ (1 <= df_len (flat_frame [100%Q; 110%Q; 90%Q]))%nat /\
  is_Some (df_columns (flat_frame [100; 110; 90]) !! "Close"%string) /\
  df_columns (flat_frame [100; 110; 90]) !! "High"%string = Some [100; 110; 90] /\
  df_columns (flat_frame [100; 110; 90]) !! "Low"%string = Some [100; 110; 90] /\
  exists m hi lo high_rows low_rows,
    kpi_metrics (flat_frame [100; 110; 90]) = Some m /\
    high_24h m = Some hi /\ low_24h m = Some lo /\
    last_rows 24 [100; 110; 90] high_rows /\ last_rows 24 [100; 110; 90] low_rows /\
    is_max_of hi high_rows /\ is_min_of lo low_rows.
Proof.
  split; [apply flat_frame_wf|]. split; [cbn; lia|]. split; [by eexists|].
  split; [reflexivity|]. split; [reflexivity|].
  apply (kpi_metrics_high_low (flat_frame [100; 110; 90]) [100; 110; 90] [100; 110; 90]).
  - apply flat_frame_wf.
  - cbn. lia.
  - by eexists.
  - reflexivity.
  - reflexivity.
Defined.

(** ** Sentiment *)

Section SentimentScore.

Import Sentiment.

Lemma inject_nat_S (n : nat) :
  inject_Z (Z.of_nat (S n)) == inject_Z (Z.of_nat n) + 1.
Proof. rewrite Nat2Z.inj_succ. unfold Z.succ. by rewrite inject_Z_plus. Qed.

Lemma inject_nat_pos (n : nat) : (0 < n)%nat -> 0 < inject_Z (Z.of_nat n).
Proof. intros Hn. unfold Qlt. cbn. lia. Qed.

Lemma fold_left_Qplus (s : list Q) (a : Q) :
  fold_left Qplus s a == a + foldr Qplus 0 s.
Proof.
  revert a. induction s as [|x s IH]; intros a; cbn.
  - ring.
  - rewrite IH. ring.
Qed.

Lemma foldr_Qplus_bounds (s : list Q) :
  Forall (fun p => -1 <= p /\ p <= 1) s ->
  - inject_Z (Z.of_nat (length s)) <= foldr Qplus 0 s /\
  foldr Qplus 0 s <= inject_Z (Z.of_nat (length s)).
Proof.
  induction 1 as [|x s [Hlo Hhi] _ [IHlo IHhi]].
  - cbn. split; discriminate.
  - cbn [foldr length]. rewrite inject_nat_S. split; lra.
Qed.

Lemma average_spec (s : list Q) (avg : Q) :
  average s = Some avg ->
  s <> [] /\ avg * inject_Z (Z.of_nat (length s)) == foldr Qplus 0 s.
Proof.
  unfold average. destruct (decide (length s = 0%nat)) as [|Hlen]; [discriminate|].
  intros [= <-]. split; [by intros ->|].
  unfold py_sum. rewrite fold_left_Qplus. field.
  assert (0 < inject_Z (Z.of_nat (length s))) by (apply inject_nat_pos; lia). lra.
Qed.

Lemma average_bounds (s : list Q) (avg : Q) :
  Forall (fun p => -1 <= p /\ p <= 1) s ->
  s <> [] -> avg * inject_Z (Z.of_nat (length s)) == foldr Qplus 0 s ->
  -1 <= avg /\ avg <= 1.
Proof.
  intros Hall Hne Havg. destruct (foldr_Qplus_bounds s Hall) as [Hlo Hhi].
  assert (Hn : 0 < inject_Z (Z.of_nat (length s))).
  { apply inject_nat_pos. destruct s; [done|cbn; lia]. }
  rewrite <- Havg in Hlo, Hhi. split; nra.
Qed.

Lemma label_of_spec (s : Q) :
  (label_of s = BULLISH <-> 60 <= s) /\
  (label_of s = NEUTRAL <-> 40 <= s /\ s < 60) /\
  (label_of s = BEARISH <-> s < 40).
Proof.
  unfold label_of.
  destruct (Qle_bool 60 s) eqn:E60; [apply Qle_bool_iff in E60|];
    [|destruct (Qle_bool 40 s) eqn:E40; [apply Qle_bool_iff in E40|]].
  - repeat split; try done; try (intros; lra).
  - assert (s < 60).
    { apply Qnot_le_lt. intros H. apply Qle_bool_iff in H. congruence. }
    repeat split; try done; try (intros; lra).
  - assert (s < 40).
    { apply Qnot_le_lt. intros H. apply Qle_bool_iff in H. congruence. }
    repeat split; try done; try (intros; lra).
Qed.

Lemma mock_headlines_NoDup : NoDup mock_headlines.
Proof. apply (bool_decide_unpack (NoDup mock_headlines)). vm_compute. exact I. Qed.

Lemma random_sample_spec (c : Chance) (population : list string) (k : Z)
      (selected : list string) :
  sample_without_replacement c -> NoDup population ->
  random_sample c population k = Some selected ->
  Z.of_nat (length selected) = k /\ NoDup selected /\ selected ⊆ population.
Proof.
  intros Hsample Hpop. unfold random_sample.
  destruct (decide (0 <= k <= Z.of_nat (length population))%Z) as [Hk|]; [|discriminate].
  destruct (Hsample (length population) (Z.to_nat k) ltac:(lia)) as (Hlen & Hnd & _).
  intros Hsel. apply mapM_Some in Hsel.
  split; [|split].
  - apply Forall2_length in Hsel. lia.
  - apply NoDup_alt. intros i j h Hi Hj.
    destruct (Forall2_lookup_r _ _ _ _ _ Hsel Hi) as (pi & Hpi & Hhi).
    destruct (Forall2_lookup_r _ _ _ _ _ Hsel Hj) as (pj & Hpj & Hhj).
    assert (pi = pj) by (eapply NoDup_alt; [exact Hpop|exact Hhi|exact Hhj]).
    subst pj. eapply NoDup_alt; [exact Hnd|exact Hpi|exact Hpj].
  - intros h Hh. apply list_elem_of_lookup in Hh as [i Hi].
    destruct (Forall2_lookup_r _ _ _ _ _ Hsel Hi) as (pi & _ & Hhi).
    apply list_elem_of_lookup. eauto.
Qed.

End SentimentScore.

Section SentimentResult.

Import Sentiment.

Lemma random_sample_drawn (c : Chance) :
  randint_in_range c -> sample_without_replacement c ->
  exists selected,
    random_sample c mock_headlines (randint c 3 5) = Some selected /\
    Forall2 (fun i h => mock_headlines !! i = Some h) (sampled_positions c) selected /\
    (3 <= length selected <= 5)%nat.
Proof.
  intros Hrand Hsample.
  pose proof (Hrand 3%Z 5%Z ltac:(lia)) as Hk.
  destruct (Hsample (length mock_headlines) (Z.to_nat (randint c 3 5)))
    as (Hlen & _ & Hlt); [cbn; lia|].
  unfold random_sample. rewrite decide_True by (cbn; lia).
  destruct (mapM (fun i => mock_headlines !! i)
              (sample_positions c (length mock_headlines) (Z.to_nat (randint c 3 5))))
    as [selected|] eqn:E.
  - exists selected. apply mapM_Some in E. split; [done|]. split; [exact E|].
    apply Forall2_length in E. lia.
  - apply mapM_None_Exists in E. apply Exists_exists in E as (i & Hi & Hnone).
    rewrite Forall_forall in Hlt. specialize (Hlt i Hi).
    apply lookup_ge_None in Hnone. lia.
Qed.

(** C8: every invocation draws 3 to 5 distinct headlines of the pool of 8
    and returns a score in [0, 100] with the label the thresholds give it.
    When TextBlob rates every drawn headline, the headlines returned are the
    drawn ones and the score is [((avg + 1) / 2) * 100] for their average
    polarity [avg]; when it raises on one of them, the result is the
    fallback: score 50, NEUTRAL, no headlines. *)
Theorem get_sentiment_score_label (c : Chance) :
  randint_in_range c -> sample_without_replacement c -> polarity_in_range c ->
  let r := get_sentiment c in
  (0 <= score r /\ score r <= 100) /\
  (s_label r = BULLISH <-> 60 <= score r) /\
  (s_label r = NEUTRAL <-> 40 <= score r /\ score r < 60) /\
  (s_label r = BEARISH <-> score r < 40) /\
  exists selected,
    Forall2 (fun i h => mock_headlines !! i = Some h) (sampled_positions c) selected /\
    (3 <= length selected <= 5)%nat /\ NoDup selected /\
    selected ⊆ mock_headlines /\ length mock_headlines = 8%nat /\
    (forall scores,
       Forall2 (fun h p => polarity c h = Some p) selected scores ->
       headlines r = selected /\
       exists avg,
         avg * inject_Z (Z.of_nat (length scores)) == foldr Qplus 0 scores /\
         score r == ((avg + 1) / 2) * 100) /\
    ((exists h, h ∈ selected /\ polarity c h = None) ->
     score r = 50 /\ s_label r = NEUTRAL /\ headlines r = []).
Proof.
  intros Hrand Hsample Hpol r. subst r.
  destruct (random_sample_drawn c Hrand Hsample) as (selected & Hrs & Hpos & Hlen).
  destruct (random_sample_spec c mock_headlines _ selected Hsample
              mock_headlines_NoDup Hrs) as (_ & Hnd & Hsub).
  unfold get_sentiment, analyse. rewrite Hrs. cbn [mbind option_bind].
  destruct (mapM (polarity c) selected) as [scores0|] eqn:Escores;
    cbn [mbind option_bind].
  - pose proof Escores as Hall2. apply mapM_Some in Hall2.
    assert (Hsc : length scores0 = length selected)
      by (symmetry; by eapply Forall2_length).
    destruct (average scores0) as [avg|] eqn:Eavg; cbn [mbind option_bind].
    2:{ unfold average in Eavg. rewrite decide_False in Eavg by lia. discriminate. }
    cbn [score s_label headlines].
    assert (Hall : Forall (fun p => -1 <= p /\ p <= 1) scores0).
    { apply Forall_lookup. intros i p Hi.
      destruct (Forall2_lookup_r _ _ _ _ _ Hall2 Hi) as (h & _ & Hh).
      by apply (Hpol h). }
    destruct (average_spec scores0 avg Eavg) as [Hne Havg].
    destruct (average_bounds scores0 avg Hall Hne Havg) as [Hlo Hhi].
    assert (Hscale : (avg + 1) / 2 * 100 == 50 * (avg + 1)) by field.
    split; [split; rewrite Hscale; lra|].
    destruct (label_of_spec ((avg + 1) / 2 * 100)) as (Hb & Hn & He).
    split; [exact Hb|]. split; [exact Hn|]. split; [exact He|].
    exists selected. split; [exact Hpos|]. split; [exact Hlen|].
    split; [exact Hnd|]. split; [exact Hsub|]. split; [reflexivity|]. split.
    + intros scores Hscores. apply mapM_Some in Hscores.
      rewrite Escores in Hscores. injection Hscores as <-.
      split; [reflexivity|]. exists avg. split; [exact Havg|reflexivity].
    + intros (h & Hin & Hnone). exfalso.
      assert (Hsome : Forall (is_Some ∘ polarity c) selected)
        by (apply mapM_is_Some; eauto).
      rewrite Forall_forall in Hsome. specialize (Hsome h Hin).
      cbn in Hsome. rewrite Hnone in Hsome. by destruct Hsome.
  - cbn [fallback score s_label headlines].
    split; [split; discriminate|].
    split; [split; [discriminate|intros H; by exfalso]|].
    split; [split; [intros _; split; [discriminate|reflexivity]|done]|].
    split; [split; [discriminate|intros H; by exfalso]|].
    exists selected. split; [exact Hpos|]. split; [exact Hlen|].
    split; [exact Hnd|]. split; [exact Hsub|]. split; [reflexivity|]. split.
    + intros scores Hscores. apply mapM_Some in Hscores. congruence.
    + done.
Qed.

Lemma steady_randint : randint_in_range steady.
Proof. intros a b H. cbn. lia. Qed.

Lemma steady_sample : sample_without_replacement steady.
Proof.
  intros n k H. cbn. split; [apply length_seq|]. split; [apply NoDup_seq|].
  apply Forall_forall. intros i Hi. apply elem_of_seq in Hi. lia.
Qed.

Lemma steady_polarity : polarity_in_range steady.
Proof. intros h p [= <-]. split; lra. Qed.

Lemma get_sentiment_score_label_witness :
  randint_in_range steady /\ sample_without_replacement steady /\
  polarity_in_range steady /\
  let r := get_sentiment steady in
  (0 <= score r /\ score r <= 100) /\
  (s_label r = BULLISH <-> 60 <= score r) /\
  (s_label r = NEUTRAL <-> 40 <= score r /\ score r < 60) /\
  (s_label r = BEARISH <-> score r < 40) /\
  exists selected,
    Forall2 (fun i h => mock_headlines !! i = Some h) (sampled_positions steady) selected /\
    (3 <= length selected <= 5)%nat /\ NoDup selected /\
    selected ⊆ mock_headlines /\ length mock_headlines = 8%nat /\
    (forall scores,
       Forall2 (fun h p => polarity steady h = Some p) selected scores ->
       headlines r = selected /\
       exists avg,
         avg * inject_Z (Z.of_nat (length scores)) == foldr Qplus 0 scores /\
         score r == ((avg + 1) / 2) * 100) /\
    ((exists h, h ∈ selected /\ polarity steady h = None) ->
     score r = 50 /\ s_label r = NEUTRAL /\ headlines r = []).
Proof.
  split; [exact steady_randint|]. split; [exact steady_sample|].
  split; [exact steady_polarity|].
  exact (get_sentiment_score_label steady steady_randint steady_sample steady_polarity).
Defined.

(** The two paths on sample invocations: a score of 75 (BULLISH) from
    three headlines of polarity one half, and the fallback when TextBlob
    raises. *)
Example get_sentiment_steady :
  score (get_sentiment steady) == 75 /\ s_label (get_sentiment steady) = BULLISH /\
  length (headlines (get_sentiment steady)) = 3%nat.
Proof. vm_compute. repeat split. Qed.

Example get_sentiment_broken : get_sentiment broken = fallback.
Proof. reflexivity. Qed.

End SentimentResult.

(** * Further properties of the code *)

(** ** Frames of five columns *)

Lemma five_columns_lookup (o h l c v : list Q) (col : string) (s : list Q) :
  ({[ "Open"%string := o; "High"%string := h; "Low"%string := l;
      "Close"%string := c; "Volume"%string := v ]} : gmap string (list Q)) !! col = Some s <->
  (col = "Open"%string /\ s = o) \/ (col = "High"%string /\ s = h) \/
  (col = "Low"%string /\ s = l) \/ (col = "Close"%string /\ s = c) \/
  (col = "Volume"%string /\ s = v).
Proof.
  rewrite !lookup_insert_Some, lookup_singleton_Some. split.
  - intros [[<- <-]|[_ [[<- <-]|[_ [[<- <-]|[_ [[<- <-]|[_ [<- <-]]]]]]]]]; tauto.
  - intros [[-> ->]|[[-> ->]|[[-> ->]|[[-> ->]|[-> ->]]]]].
    + by left.
    + right. split; [done|]. by left.
    + right. split; [done|]. right. split; [done|]. by left.
    + right. split; [done|]. right. split; [done|]. right. split; [done|]. by left.
    + right. split; [done|]. right. split; [done|]. right. split; [done|].
      right. split; [done|]. done.
Qed.

Lemma five_columns_not_empty (index : list datetime) (o h l c v : list Q) :
  index <> [] ->
  df_empty {| df_index := index;
              df_columns := {[ "Open"%string := o; "High"%string := h;
                               "Low"%string := l; "Close"%string := c;
                               "Volume"%string := v ]} |} = false.
Proof.
  intros Hne. unfold df_empty, df_len. cbn [df_index df_columns].
  apply orb_false_iff. split; apply bool_decide_eq_false.
  - destruct index; [done|]. cbn. lia.
  - rewrite map_size_empty_iff. apply insert_non_empty.
Qed.

Lemma five_columns_names (o h l c v : list Q) (col : string) :
  is_Some (({[ "Open"%string := o; "High"%string := h; "Low"%string := l;
               "Close"%string := c; "Volume"%string := v ]}
            : gmap string (list Q)) !! col) <->
  col ∈ ohlcv_columns.
Proof.
  unfold ohlcv_columns. rewrite !elem_of_cons, elem_of_nil. split.
  - intros [s Hs]. apply five_columns_lookup in Hs. tauto.
  - intros Hcol.
    assert (exists s, (col = "Open"%string /\ s = o) \/ (col = "High"%string /\ s = h) \/
              (col = "Low"%string /\ s = l) \/ (col = "Close"%string /\ s = c) \/
              (col = "Volume"%string /\ s = v)) as [s Hs].
    { destruct Hcol as [->|[->|[->|[->|[->|[]]]]]]; eexists; eauto 10. }
    exists s. by apply five_columns_lookup.
Qed.

(** ** The synthetic generator: shape, dates, bands and draws *)

Lemma Py_bind_run {A B} (m : Py A) (f : A -> Py B) (s : PyState) :
  (m ≫= f) s = f (fst (m s)) (snd (m s)).
Proof. unfold mbind, Py_bind. by destruct (m s). Qed.

Section GeneratorMore.

Variable w : World.

Lemma mock_loop_state {A} (dates : list A) (price : Q) (s : PyState) :
  snd (mock_loop w dates price s) =
    {| rng_calls := 6 * length dates + rng_calls s; clock_calls := clock_calls s |}.
Proof.
  revert price s. induction dates as [|d rest IH]; intros price s.
  - by destruct s.
  - rewrite mock_loop_cons. cbn [snd]. rewrite IH, mock_step_run. cbn [snd rng_calls clock_calls length].
    f_equal. lia.
Qed.

Lemma mock_walk_state (ticker interval : string) (s : PyState) :
  snd (mock_walk w ticker interval s) =
    {| rng_calls := 6 * num_periods interval + rng_calls s;
       clock_calls := clock_calls s + num_periods interval |}.
Proof.
  unfold mock_walk. rewrite !Py_bind_run. unfold mret, Py_ret. cbn [snd].
  rewrite mock_loop_state, mock_dates_run. cbn [fst snd rng_calls clock_calls].
  by rewrite length_map, length_seq.
Qed.

Lemma mock_walk_length (ticker interval : string) (s : PyState) :
  length (snd (fst (mock_walk w ticker interval s))) = num_periods interval.
Proof.
  rewrite mock_walk_run. cbn [snd]. by rewrite mock_loop_length, mock_dates_length.
Qed.

End GeneratorMore.

(** X1: the synthetic frame has exactly the columns Open, High, Low, Close
    and Volume, each as long as the index, whose length is the row count of
    the interval; it is never empty. *)
Theorem generate_mock_data_shape
    (w : World) (ticker period interval : string) (s : PyState) :
  let df := fst (generate_mock_data w ticker period interval s) in
  df_wf df /\ df_empty df = false /\
  (forall col, is_Some (df_columns df !! col) <-> col ∈ ohlcv_columns) /\
  (forall col column, df_columns df !! col = Some column ->
     length column = num_periods interval).
Proof.
  intros df.
  assert (Hlen : df_len df = num_periods interval) by apply generate_mock_data_len.
  subst df. rewrite generate_mock_data_run in *.
  pose proof (mock_walk_length w ticker interval s) as Hrows.
  set (rows := snd (fst (mock_walk w ticker interval s))) in *.
  set (dates := fst (fst (mock_walk w ticker interval s))) in *.
  assert (Hcols : forall col column,
            df_columns (DataFrame_of_records (map snd rows) dates) !! col = Some column ->
            length column = num_periods interval).
  { intros col column Hc. unfold DataFrame_of_records in Hc. cbn [df_columns] in Hc.
    apply five_columns_lookup in Hc.
    destruct Hc as [[_ ->]|[[_ ->]|[[_ ->]|[[_ ->]|[_ ->]]]]];
      by rewrite !length_map. }
  split; [|split; [|split]].
  - intros col column Hc. rewrite Hlen. by eapply Hcols.
  - apply five_columns_not_empty. intros Hnil.
    unfold df_len in Hlen. cbn [DataFrame_of_records df_index] in Hlen.
    rewrite Hnil in Hlen. pose proof (num_periods_ge interval). cbn in Hlen. lia.
  - intros col. apply five_columns_names.
  - exact Hcols.
Qed.

(** X2: when the uniform draws respect their bounds, every Volume of the
    synthetic frame lies between 1e9 and 5e9. *)
Theorem generate_mock_data_volume_range
    (w : World) (ticker period interval : string) (s : PyState) :
  uniform_in_range w ->
  exists volumes,
    df_columns (fst (generate_mock_data w ticker period interval s)) !! "Volume"%string
      = Some volumes /\
    Forall (fun v => 1e9 <= v /\ v <= 5e9) volumes.
Proof.
  intros Huniform. rewrite generate_mock_data_run.
  eexists. split; [reflexivity|].
  apply Forall_fmap, Forall_fmap. rewrite mock_walk_run. cbn [snd].
  apply (mock_loop_Forall w (fun _ => True)); [|exact I].
  intros price s1 _. split; [exact I|].
  rewrite mock_step_run. cbn zeta. cbn [fst snd Volume compose].
  apply Huniform. vm_compute. discriminate.
Qed.

Lemma generate_mock_data_volume_range_witness :
  uniform_in_range offline /\
  exists volumes,
    df_columns (fst (generate_mock_data offline "BTC-USD" "7d" "5m" fresh)) !! "Volume"%string
      = Some volumes /\
    Forall (fun v => 1e9 <= v /\ v <= 5e9) volumes.
Proof.
  split; [exact offline_uniform_in_range|].
  exact (generate_mock_data_volume_range offline "BTC-USD" "7d" "5m" fresh
           offline_uniform_in_range).
Defined.

(** X3: row [i] of the synthetic frame is dated [n - i] whole days before
    the clock reading taken for it, [n] being the row count, whatever the
    interval; so consecutive rows are one day apart plus the time that
    passed between their two readings. *)
Theorem generate_mock_data_dates
    (w : World) (ticker period interval : string) (s : PyState) (i : nat) (a : datetime) :
  df_index (fst (generate_mock_data w ticker period interval s)) !! i = Some a ->
  a = (clock w (clock_calls s + i)
       - timedelta (Z.of_nat (num_periods interval - i)))%Z /\
  forall b,
    df_index (fst (generate_mock_data w ticker period interval s)) !! S i = Some b ->
    (b - a = timedelta 1
             + (clock w (clock_calls s + S i) - clock w (clock_calls s + i)))%Z.
Proof.
  rewrite generate_mock_data_run, mock_walk_run.
  cbn [fst df_index DataFrame_of_records]. rewrite mock_dates_run. cbn [fst].
  rewrite !list_lookup_fmap.
  intros Ha.
  destruct (seq 0 (num_periods interval) !! i) as [i'|] eqn:Ei; [|discriminate].
  apply lookup_seq in Ei as [-> Hi]. cbn in Ha. injection Ha as <-.
  split; [reflexivity|].
  intros b Hb.
  destruct (seq 0 (num_periods interval) !! S i) as [j'|] eqn:Ej; [|discriminate].
  apply lookup_seq in Ej as [-> Hj]. cbn in Hb. injection Hb as <-.
  unfold timedelta. lia.
Qed.

Lemma generate_mock_data_dates_witness :
  df_index (fst (generate_mock_data offline "BTC-USD" "60d" "1h" fresh)) !! 3%nat
    = Some (1575843200000003)%Z /\
  ((1575843200000003) = clock offline (clock_calls fresh + 3)
       - timedelta (Z.of_nat (num_periods "1h" - 3)))%Z /\
  forall b,
    df_index (fst (generate_mock_data offline "BTC-USD" "60d" "1h" fresh)) !! 4%nat = Some b ->
    (b - (1575843200000003) = timedelta 1
             + (clock offline (clock_calls fresh + 4) - clock offline (clock_calls fresh + 3)))%Z.
Proof.
  assert (H : df_index (fst (generate_mock_data offline "BTC-USD" "60d" "1h" fresh)) !! 3%nat
              = Some (1575843200000003)%Z) by (vm_compute; reflexivity).
  split; [exact H|].
  exact (generate_mock_data_dates offline "BTC-USD" "60d" "1h" fresh 3 _ H).
Defined.

(** X22: when the wall clock never steps back by a day or more between two
    consecutive readings, the timestamps of the synthetic frame are strictly
    increasing, for every ticker, period and interval. *)
Theorem generate_mock_data_timestamps_increasing
    (w : World) (ticker period interval : string) (s : PyState)
    (i j : nat) (a b : datetime) :
  clock_steady w -> (i < j)%nat ->
  df_index (fst (generate_mock_data w ticker period interval s)) !! i = Some a ->
  df_index (fst (generate_mock_data w ticker period interval s)) !! j = Some b ->
  (a < b)%Z.
Proof.
  intros Hclock Hij. rewrite generate_mock_data_run, mock_walk_run.
  cbn [fst df_index DataFrame_of_records]. by apply mock_dates_increasing.
Qed.

Lemma generate_mock_data_timestamps_increasing_witness :
  clock_steady offline /\ (0 < 364)%nat /\
  df_index (fst (generate_mock_data offline "BTC-USD" "1y" "1d" fresh)) !! 0%nat
    = Some (1668464000000000)%Z /\
  df_index (fst (generate_mock_data offline "BTC-USD" "1y" "1d" fresh)) !! 364%nat
    = Some (1699913600000364)%Z /\
  (1668464000000000 < 1699913600000364)%Z.
Proof.
  assert (Ha : df_index (fst (generate_mock_data offline "BTC-USD" "1y" "1d" fresh)) !! 0%nat
               = Some (1668464000000000)%Z) by (vm_compute; reflexivity).
  assert (Hb : df_index (fst (generate_mock_data offline "BTC-USD" "1y" "1d" fresh)) !! 364%nat
               = Some (1699913600000364)%Z) by (vm_compute; reflexivity).
  assert (Hlt : (0 < 364)%nat) by lia.
  split; [exact offline_clock_steady|]. split; [exact Hlt|].
  split; [exact Ha|]. split; [exact Hb|].
  exact (generate_mock_data_timestamps_increasing offline "BTC-USD" "1y" "1d" fresh
           0 364 _ _ offline_clock_steady Hlt Ha Hb).
Defined.




(** X5: one call of the generator reads the clock once per row and makes
    six draws per row, whatever the draws are. *)
Theorem generate_mock_data_draws
    (w : World) (ticker period interval : string) (s : PyState) :
  snd (generate_mock_data w ticker period interval s) =
    {| rng_calls := 6 * num_periods interval + rng_calls s;
       clock_calls := clock_calls s + num_periods interval |}.
Proof.
  unfold generate_mock_data. rewrite Py_bind_run. unfold mret, Py_ret. cbn [snd].
  apply mock_walk_state.
Qed.

Section Walk.

Variable w : World.

Lemma mock_loop_lookup_S {A} (d : A) (rest : list A) (price : Q) (s : PyState) (i : nat) :
  fst (mock_loop w (d :: rest) price s) !! S i =
  fst (mock_loop w rest (price * (1 + np_normal w (rng_calls s) 0.002 0.03))
         {| rng_calls := 6 + rng_calls s; clock_calls := clock_calls s |}) !! i.
Proof. rewrite mock_loop_cons. cbn [fst]. by rewrite mock_step_run. Qed.

Lemma mock_loop_lookup_0 {A} (dates : list A) (price : Q) (s : PyState) (pr : Q * OHLCV) :
  fst (mock_loop w dates price s) !! 0%nat = Some pr ->
  fst pr = price * (1 + np_normal w (rng_calls s) 0.002 0.03).
Proof.
  destruct dates as [|d rest]; [discriminate|].
  rewrite mock_loop_cons. cbn [fst]. rewrite mock_step_run. cbn. by intros [= <-].
Qed.

Lemma mock_loop_recurrence {A} (dates : list A) (price : Q) (s : PyState)
      (i : nat) (pr pr' : Q * OHLCV) :
  fst (mock_loop w dates price s) !! i = Some pr ->
  fst (mock_loop w dates price s) !! S i = Some pr' ->
  fst pr' = fst pr * (1 + np_normal w (6 * S i + rng_calls s) 0.002 0.03).
Proof.
  revert price s i. induction dates as [|d rest IH]; intros price s i; [discriminate|].
  destruct i as [|i].
  - intros H0 H1. apply mock_loop_lookup_0 in H0. rewrite mock_loop_lookup_S in H1.
    apply mock_loop_lookup_0 in H1. cbn [rng_calls] in H1. rewrite H1, <- H0.
    do 3 f_equal.
  - rewrite !mock_loop_lookup_S. intros Hi HSi.
    rewrite (IH _ _ i Hi HSi). cbn [rng_calls]. do 3 f_equal. lia.
Qed.

Lemma mock_loop_trace {A} (dates : list A) (price : Q) (s : PyState) :
  dates <> [] ->
  map fst (fst (mock_loop w dates price s)) !! 0%nat =
    Some (price * (1 + np_normal w (rng_calls s) 0.002 0.03)) /\
  forall i p q,
    map fst (fst (mock_loop w dates price s)) !! i = Some p ->
    map fst (fst (mock_loop w dates price s)) !! S i = Some q ->
    q = p * (1 + np_normal w (6 * S i + rng_calls s) 0.002 0.03).
Proof.
  intros Hne. split.
  - destruct dates as [|d rest]; [done|].
    rewrite mock_loop_cons. cbn [fst map]. by rewrite mock_step_run.
  - intros i p q. rewrite !list_lookup_fmap. intros Hp Hq.
    apply fmap_Some in Hp as (pr & Ei & ->). apply fmap_Some in Hq as (pr' & ESi & ->).
    apply (mock_loop_recurrence dates price s i pr pr' Ei ESi).
Qed.

End Walk.

(** X6: the running price is a multiplicative random walk from the base
    price of the ticker (1000 for a ticker without an entry): the first
    running price is the base price times one plus the first drift, and each
    later one is its predecessor times one plus the drift drawn six draws
    after the previous drift. *)
Theorem mock_walk_recurrence
    (w : World) (ticker interval : string) (s : PyState) :
  let trace := map fst (snd (fst (mock_walk w ticker interval s))) in
  trace !! 0%nat =
    Some (default 1000 (base_prices !! ticker)
          * (1 + np_normal w (rng_calls s) 0.002 0.03)) /\
  forall i p q,
    trace !! i = Some p -> trace !! S i = Some q ->
    q = p * (1 + np_normal w (6 * S i + rng_calls s) 0.002 0.03).
Proof.
  intros trace. subst trace. rewrite mock_walk_run. cbn [snd].
  pose proof (mock_dates_length w (num_periods interval) s) as Hlen.
  pose proof (num_periods_ge interval) as Hge.
  destruct (mock_dates w (num_periods interval) s) as [dates s1] eqn:Ed.
  assert (Hs1 : rng_calls s1 = rng_calls s).
  { rewrite mock_dates_run in Ed. by injection Ed as _ <-. }
  cbn [fst snd] in *. rewrite <- Hs1.
  apply mock_loop_trace. intros ->. cbn in Hlen. lia.
Qed.

(** ** The primary provider: shape of the frame and draws *)

Lemma candle_frame_wf (candles : list Candle) (volumes : list Q) :
  length volumes = length candles -> df_wf (candle_frame candles volumes).
Proof.
  intros Hlen col column Hc. unfold candle_frame, df_len in *. cbn [df_columns df_index] in *.
  apply five_columns_lookup in Hc.
  destruct Hc as [[_ ->]|[[_ ->]|[[_ ->]|[[_ ->]|[_ ->]]]]];
    rewrite ?length_map; done.
Qed.

Lemma get_coingecko_data_run (w : World) (coin_id : string) (days : Z) (s : PyState) :
  get_coingecko_data w coin_id days s =
    match coingecko_candles w coin_id days with
    | Some candles =>
        ((Some (candle_frame candles
                  (map (fun i => np_uniform w (rng_calls s + i) 1e9 5e9)
                       (seq 0 (length candles)))), true),
         {| rng_calls := rng_calls s + length candles; clock_calls := clock_calls s |})
    | None => ((None, false), s)
    end.
Proof.
  unfold get_coingecko_data. destruct (coingecko_candles w coin_id days) as [candles|]; [|done].
  by rewrite Py_bind_run, uniform_draws_run.
Qed.

(** X7: the flag returned by the primary provider is true exactly when a
    frame is returned; a returned frame has at least two rows, exactly the
    columns Open, High, Low, Close and Volume, each as long as the index, and
    its Volumes lie between 1e9 and 5e9 when the uniform draws respect their
    bounds. *)
Theorem get_coingecko_data_frame_shape
    (w : World) (coin_id : string) (days : Z) (s : PyState) :
  let r := fst (get_coingecko_data w coin_id days s) in
  (snd r = true <-> is_Some (fst r)) /\
  forall df, fst r = Some df ->
    (2 <= df_len df)%nat /\ df_wf df /\ df_empty df = false /\
    (forall col, is_Some (df_columns df !! col) <-> col ∈ ohlcv_columns) /\
    (uniform_in_range w ->
     exists volumes, df_columns df !! "Volume"%string = Some volumes /\
                     Forall (fun v => 1e9 <= v /\ v <= 5e9) volumes).
Proof.
  intros r. subst r. rewrite get_coingecko_data_run.
  destruct (coingecko_candles w coin_id days) as [candles|] eqn:Ec; cbn [fst snd].
  - split; [split; [by eexists|done]|].
    intros df [= <-].
    apply coingecko_candles_Some in Ec as (data & _ & Hlen & Hparse).
    apply Forall2_length in Hparse.
    split. { unfold df_len. cbn. rewrite length_map. lia. }
    split. { apply candle_frame_wf. by rewrite length_map, length_seq. }
    split. { apply candle_frame_not_empty. lia. }
    split. { intros col. apply five_columns_names. }
    intros Huniform. eexists. split; [reflexivity|].
    apply Forall_fmap, Forall_forall. intros i _. cbn. apply Huniform.
    vm_compute. discriminate.
  - split; [|done]. split; [discriminate|]. by intros [? ?].
Qed.

(** X8: a failed call of the primary provider makes no random draw; a
    successful one makes exactly one draw per candle of the payload; neither
    reads the clock. *)
Theorem get_coingecko_data_draws
    (w : World) (coin_id : string) (days : Z) (s : PyState) :
  let r := get_coingecko_data w coin_id days s in
  clock_calls (snd r) = clock_calls s /\
  (fst (fst r) = None -> snd r = s) /\
  (forall data, http_get w coin_id days = Payload data -> is_Some (fst (fst r)) ->
     rng_calls (snd r) = (rng_calls s + length data)%nat).
Proof.
  intros r. subst r. rewrite get_coingecko_data_run.
  destruct (coingecko_candles w coin_id days) as [candles|] eqn:Ec; cbn [fst snd].
  - split; [done|]. split; [discriminate|].
    intros data Hd _. cbn [rng_calls].
    apply coingecko_candles_Some in Ec as (data' & Hd' & _ & Hparse).
    apply Forall2_length in Hparse. congruence.
  - split; [done|]. split; [done|]. by intros data _ [? ?].
Qed.

(** ** The fallback chain: precedence and what is consulted *)

(** X9: when the primary provider returns a frame for the ticker's coin,
    [get_data] returns that frame with [is_live = True] and the Yahoo
    Finance client has no influence on the result. *)
Theorem get_data_primary_wins
    (w : World) (ticker interval coin_id : string) (s : PyState) (df : DataFrame) :
  coingecko_map !! ticker = Some coin_id ->
  fst (fst (get_coingecko_data w coin_id 365 s)) = Some df ->
  fst (get_data w ticker interval s) = (df, true) /\
  forall history,
    get_data (with_yf_history w history) ticker interval s = get_data w ticker interval s.
Proof.
  intros Hcoin Hcall.
  assert (Htry : forall w', http_get w' = http_get w -> fromtimestamp w' = fromtimestamp w ->
            np_uniform w' = np_uniform w ->
            try_coingecko w' ticker s = try_coingecko w ticker s /\
            exists s1, try_coingecko w ticker s = (Some (df, true), s1)).
  { intros w' Hh Hf Hu. unfold try_coingecko. rewrite coingecko_map_truthy, Hcoin.
    rewrite !Py_bind_run, !get_coingecko_data_run in *.
    unfold coingecko_candles, parse_candle in *. rewrite Hh, Hf, Hu.
    destruct (match http_get w coin_id 365 with Payload _ => _ | _ => None end)
      as [candles|] eqn:Ec; [|discriminate].
    cbn [fst snd] in *. injection Hcall as <-.
    split; [reflexivity|].
    assert (Hlen : (2 <= length candles)%nat).
    { assert (Ec' : coingecko_candles w coin_id 365 = Some candles) by exact Ec.
      apply coingecko_candles_Some in Ec' as (data & _ & Hlen & Hparse).
      apply Forall2_length in Hparse. lia. }
    rewrite candle_frame_not_empty by lia. cbn. eauto. }
  split.
  - rewrite get_data_run. destruct (Htry w eq_refl eq_refl eq_refl) as [_ [s1 ->]]. done.
  - intros history. unfold get_data. rewrite !Py_bind_run.
    destruct (Htry (with_yf_history w history) eq_refl eq_refl eq_refl) as [-> [s1 ->]].
    reflexivity.
Qed.

Lemma get_data_primary_wins_witness :
  coingecko_map !! "BTC-USD"%string = Some "bitcoin"%string /\
  fst (fst (get_coingecko_data (coingecko_up two_candles) "bitcoin" 365 fresh)) =
    Some two_candles_frame /\
  fst (get_data (coingecko_up two_candles) "BTC-USD" "1d" fresh) =
    (two_candles_frame, true) /\
  forall history,
    get_data (with_yf_history (coingecko_up two_candles) history) "BTC-USD" "1d" fresh =
    get_data (coingecko_up two_candles) "BTC-USD" "1d" fresh.
Proof.
  assert (Hcoin : coingecko_map !! "BTC-USD"%string = Some "bitcoin"%string) by reflexivity.
  assert (Hcall : fst (fst (get_coingecko_data (coingecko_up two_candles) "bitcoin" 365 fresh)) =
    Some two_candles_frame) by (vm_compute; reflexivity).
  split; [exact Hcoin|]. split; [exact Hcall|].
  exact (get_data_primary_wins (coingecko_up two_candles) "BTC-USD" "1d" "bitcoin" fresh _
           Hcoin Hcall).
Defined.

Lemma mock_loop_ext {A} (w w' : World) (dates : list A) (price : Q) (s : PyState) :
  np_normal w' = np_normal w -> np_uniform w' = np_uniform w ->
  mock_loop w' dates price s = mock_loop w dates price s.
Proof.
  intros Hn Hu. revert price s. induction dates as [|d rest IH]; intros price s; [done|].
  assert (Hstep : forall p st, mock_step w' p st = mock_step w p st)
    by (intros p st; by rewrite !mock_step_run, Hn, Hu).
  by rewrite !mock_loop_cons, Hstep, IH.
Qed.

Lemma generate_mock_data_ext (w w' : World) (ticker period interval : string) (s : PyState) :
  clock w' = clock w -> np_normal w' = np_normal w -> np_uniform w' = np_uniform w ->
  generate_mock_data w' ticker period interval s = generate_mock_data w ticker period interval s.
Proof.
  intros Hc Hn Hu. unfold generate_mock_data, mock_walk. rewrite !Py_bind_run.
  rewrite !mock_dates_run, Hc. cbn [fst snd]. by rewrite (mock_loop_ext w w').
Qed.

(** X10: the only HTTP request [get_data] depends on is the one for the
    ticker's coin id with [days = 365]; for a ticker without an entry in
    [coingecko_map] the endpoint has no influence at all. *)
Theorem get_data_http_request
    (w : World) (get : string -> Z -> http_reply) (ticker interval : string) (s : PyState) :
  (forall coin_id, coingecko_map !! ticker = Some coin_id ->
     get coin_id 365%Z = http_get w coin_id 365%Z) ->
  get_data (with_http_get w get) ticker interval s = get_data w ticker interval s.
Proof.
  intros Hget.
  assert (Htry : try_coingecko (with_http_get w get) ticker s = try_coingecko w ticker s).
  { unfold try_coingecko. rewrite coingecko_map_truthy.
    destruct (coingecko_map !! ticker) as [coin_id|] eqn:Ecoin; [|reflexivity].
    rewrite !Py_bind_run, !get_coingecko_data_run.
    unfold coingecko_candles. cbn [http_get with_http_get].
    rewrite (Hget coin_id eq_refl). reflexivity. }
  unfold get_data. rewrite !Py_bind_run, Htry.
  destruct (fst (try_coingecko w ticker s)); [reflexivity|].
  change (try_yfinance (with_http_get w get) ticker interval)
    with (try_yfinance w ticker interval).
  destruct (try_yfinance w ticker interval); [reflexivity|].
  rewrite !Py_bind_run. by rewrite (generate_mock_data_ext w (with_http_get w get)).
Qed.

Lemma get_data_http_request_witness :
  (forall coin_id, coingecko_map !! "BTC-USD"%string = Some coin_id ->
     bitcoin_year_only coin_id 365%Z = http_get (coingecko_up two_candles) coin_id 365%Z) /\
  get_data (with_http_get (coingecko_up two_candles) bitcoin_year_only) "BTC-USD" "1d" fresh
  = get_data (coingecko_up two_candles) "BTC-USD" "1d" fresh.
Proof.
  assert (H : forall coin_id, coingecko_map !! "BTC-USD"%string = Some coin_id ->
     bitcoin_year_only coin_id 365%Z = http_get (coingecko_up two_candles) coin_id 365%Z)
    by (intros coin_id [= <-]; reflexivity).
  split; [exact H|].
  exact (get_data_http_request (coingecko_up two_candles) bitcoin_year_only
           "BTC-USD" "1d" fresh H).
Defined.

Lemma DataFrame_of_records_wf (data : list OHLCV) (index : list datetime) :
  length data = length index -> df_wf (DataFrame_of_records data index).
Proof.
  intros Hlen col column Hc. unfold DataFrame_of_records, df_len in *.
  cbn [df_columns df_index] in *. apply five_columns_lookup in Hc.
  destruct Hc as [[_ ->]|[[_ ->]|[[_ ->]|[[_ ->]|[_ ->]]]]]; by rewrite length_map.
Qed.

Lemma get_data_frame_ok (w : World) (ticker interval : string) (s : PyState) :
  let df := fst (fst (get_data w ticker interval s)) in
  (1 <= df_len df)%nat /\ df_empty df = false /\
  (forall col, col ∈ required_cols -> is_Some (df_columns df !! col)) /\
  (yf_frames_wf w -> df_wf df).
Proof.
  cbn zeta.
  assert (Hreq : forall o h l c v col, col ∈ required_cols ->
            is_Some (({[ "Open"%string := o; "High"%string := h; "Low"%string := l;
                         "Close"%string := c; "Volume"%string := v ]}
                      : gmap string (list Q)) !! col)).
  { intros o h l c v col Hcol. apply five_columns_names.
    unfold required_cols, ohlcv_columns in *. rewrite !elem_of_cons in *. tauto. }
  destruct (get_data_cases w ticker interval s)
    as [(_ & (coin_id & _ & Hcall) & _ & Hlen)|[(_ & Hsucc & _)|(_ & _ & Hmock)]].
  - rewrite get_coingecko_data_run in Hcall.
    destruct (coingecko_candles w coin_id 365) as [candles|]; [|discriminate].
    cbn [fst] in Hcall. injection Hcall as Hdf. rewrite <- Hdf in *.
    split; [lia|]. split; [|split].
    + apply candle_frame_not_empty. unfold df_len in Hlen. cbn in Hlen.
      by rewrite length_map in Hlen.
    + intros col Hcol. by apply Hreq.
    + intros _. apply candle_frame_wf. by rewrite length_map, length_seq.
  - destruct Hsucc as (Hreply & Hempty & Hcols).
    split; [|split; [done|split; [done|]]].
    + unfold df_empty in Hempty. apply orb_false_iff in Hempty as [Hrows _].
      apply bool_decide_eq_false in Hrows. lia.
    + intros Hwf. by eapply Hwf.
  - rewrite Hmock. cbn [fst].
    pose proof (generate_mock_data_len w ticker (lookback interval) interval s) as Hlen.
    pose proof (num_periods_ge interval) as Hge.
    rewrite generate_mock_data_run in *.
    split; [lia|]. split; [|split].
    + apply five_columns_not_empty. intros Hnil. unfold df_len in Hlen.
      cbn [DataFrame_of_records df_index] in Hlen. rewrite Hnil in Hlen. cbn in Hlen. lia.
    + intros col Hcol. by apply Hreq.
    + intros _. apply DataFrame_of_records_wf. rewrite length_map.
      unfold df_len in Hlen. cbn [DataFrame_of_records df_index] in Hlen.
      by rewrite Hlen, mock_walk_length.
Qed.

(** X11: whatever the providers do, the frame [get_data] returns is not
    empty and has the Open, High, Low and Close columns. *)
Theorem get_data_has_ohlc (w : World) (ticker interval : string) (s : PyState) :
  let df := fst (fst (get_data w ticker interval s)) in
  df_empty df = false /\
  forall col, col ∈ required_cols -> is_Some (df_columns df !! col).
Proof.
  intros df. subst df.
  destruct (get_data_frame_ok w ticker interval s) as (_ & Hne & Hcols & _). done.
Qed.

(** ** KPI metrics: when they exist and what they satisfy *)

Lemma kpi_metrics_is_Some (data : DataFrame) :
  df_wf data -> (1 <= df_len data)%nat ->
  is_Some (df_columns data !! "Close"%string) ->
  is_Some (df_columns data !! "High"%string) ->
  is_Some (df_columns data !! "Low"%string) ->
  is_Some (kpi_metrics data).
Proof.
  intros Hwf Hrows [closes Hclose] [highs Hhigh] [lows Hlow].
  destruct (kpi_metrics_run data closes highs lows Hwf Hrows Hclose Hhigh Hlow)
    as (current & previous & _ & _ & ->). by eexists.
Qed.

(** X12: the metrics of the frame [get_data] returns are always defined
    (the [except] branch of [display_kpi_metrics] is not reached by its
    arithmetic), provided the frames of the Yahoo Finance client have the
    shape pandas maintains. *)
Theorem get_data_kpi_metrics_defined
    (w : World) (ticker interval : string) (s : PyState) :
  yf_frames_wf w ->
  df_wf (fst (fst (get_data w ticker interval s))) /\
  is_Some (kpi_metrics (fst (fst (get_data w ticker interval s)))).
Proof.
  intros Hyf.
  destruct (get_data_frame_ok w ticker interval s) as (Hlen & _ & Hcols & Hwf).
  split; [by apply Hwf|].
  apply kpi_metrics_is_Some; [by apply Hwf|done|..]; apply Hcols;
    unfold required_cols; rewrite !elem_of_cons; tauto.
Qed.

Lemma yahoo_only_frames_wf (closes : list Q) : yf_frames_wf (yahoo_only (flat_frame closes)).
Proof. intros ticker period interval df [= <-]. apply flat_frame_wf. Qed.

Lemma get_data_kpi_metrics_defined_witness :
  yf_frames_wf (yahoo_only (flat_frame [100; 110])) /\
  df_wf (fst (fst (get_data (yahoo_only (flat_frame [100; 110])) "SOL-USD" "1d" fresh))) /\
  is_Some (kpi_metrics
             (fst (fst (get_data (yahoo_only (flat_frame [100; 110])) "SOL-USD" "1d" fresh)))).
Proof.
  split; [apply yahoo_only_frames_wf|].
  exact (get_data_kpi_metrics_defined (yahoo_only (flat_frame [100; 110])) "SOL-USD" "1d" fresh
           (yahoo_only_frames_wf [100; 110])).
Defined.

Lemma iloc_neg_Some_length {A} (s : list A) (k : nat) (x : A) :
  iloc_neg s k = Some x -> (k <= length s)%nat /\ (1 <= k)%nat.
Proof.
  unfold iloc_neg. destruct (decide (k <= length s)%nat) as [Hk|]; [|discriminate].
  intros Hx. apply lookup_lt_Some in Hx. lia.
Qed.

(** X13: on a frame of the shape pandas maintains, the metrics are defined
    exactly when the frame has at least one row and the Close, High and Low
    columns; in every other case the computation raises. *)
Theorem kpi_metrics_defined_iff (data : DataFrame) :
  df_wf data ->
  (is_Some (kpi_metrics data) <->
   (1 <= df_len data)%nat /\
   is_Some (df_columns data !! "Close"%string) /\
   is_Some (df_columns data !! "High"%string) /\
   is_Some (df_columns data !! "Low"%string)).
Proof.
  intros Hwf. split.
  - intros [m Hm]. unfold kpi_metrics in Hm.
    destruct (df_columns data !! "Close"%string) as [closes|] eqn:Hclose; [|discriminate].
    cbn [mbind option_bind] in Hm.
    destruct (iloc_neg closes 1) as [current|] eqn:Hcur; [|discriminate].
    cbn [mbind option_bind] in Hm.
    destruct (if decide (1 < df_len data)%nat then iloc_neg closes 2 else Some current)
      as [previous|]; [|discriminate].
    cbn [mbind option_bind] in Hm.
    destruct (df_columns data !! "High"%string) as [highs|]; [|discriminate].
    cbn [mbind option_bind] in Hm.
    destruct (df_columns data !! "Low"%string) as [lows|]; [|discriminate].
    apply iloc_neg_Some_length in Hcur as [Hlen _].
    rewrite (Hwf _ _ Hclose) in Hlen. eauto.
  - intros (Hrows & Hclose & Hhigh & Hlow). by apply kpi_metrics_is_Some.
Qed.

Lemma kpi_metrics_defined_iff_witness :
  df_wf (flat_frame [100; 110]) /\
  (is_Some (kpi_metrics (flat_frame [100; 110])) <->
   (1 <= df_len (flat_frame [100%Q; 110%Q]))%nat /\
   is_Some (df_columns (flat_frame [100; 110]) !! "Close"%string) /\
   is_Some (df_columns (flat_frame [100; 110]) !! "High"%string) /\
   is_Some (df_columns (flat_frame [100; 110]) !! "Low"%string)).
Proof.
  split; [apply flat_frame_wf|].
  exact (kpi_metrics_defined_iff (flat_frame [100; 110]) (flat_frame_wf [100; 110])).
Defined.

Lemma last_in_window (s : list Q) (x : Q) :
  last s = Some x ->
  x ∈ (if decide (24 <= length s)%nat then tail 24 s else s).
Proof.
  intros Hlast. destruct (decide (24 <= length s)%nat) as [Hlong|_].
  - unfold tail. rewrite last_lookup in Hlast. apply list_elem_of_lookup.
    exists 23%nat. rewrite lookup_drop. rewrite <- Hlast. f_equal. lia.
  - rewrite last_lookup in Hlast. apply list_elem_of_lookup. eauto.
Qed.

Lemma window_not_empty (s : list Q) :
  (1 <= length s)%nat ->
  (if decide (24 <= length s)%nat then tail 24 s else s) <> [].
Proof.
  intros Hs. destruct (decide (24 <= length s)%nat) as [Hlong|_].
  - intros Hnil. apply (f_equal length) in Hnil. unfold tail in Hnil.
    rewrite length_drop in Hnil. cbn in Hnil. lia.
  - intros ->. cbn in Hs. lia.
Qed.

(** X14: when in every row the Close lies between the Low and the High, the
    current price lies between the 24-period low and the 24-period high. *)
Theorem kpi_metrics_price_within_range (data : DataFrame) (closes highs lows : list Q) :
  df_wf data -> (1 <= df_len data)%nat ->
  df_columns data !! "Close"%string = Some closes ->
  df_columns data !! "High"%string = Some highs ->
  df_columns data !! "Low"%string = Some lows ->
  close_within_range lows closes highs ->
  exists m hi lo,
    kpi_metrics data = Some m /\ high_24h m = Some hi /\ low_24h m = Some lo /\
    lo <= current_price m /\ current_price m <= hi.
Proof.
  intros Hwf Hrows Hclose Hhigh Hlow Hrange.
  destruct (kpi_metrics_run data closes highs lows Hwf Hrows Hclose Hhigh Hlow)
    as (current & previous & Hcur & _ & Hrun).
  pose proof (Hwf _ _ Hclose) as Lc. pose proof (Hwf _ _ Hhigh) as Lh.
  pose proof (Hwf _ _ Hlow) as Ll.
  destruct (series_max_spec _ (window_not_empty highs ltac:(lia))) as (hi & Ehi & _ & Hhi).
  destruct (series_min_spec _ (window_not_empty lows ltac:(lia))) as (lo & Elo & _ & Hlo).
  assert (Hlh : is_Some (last highs)).
  { rewrite last_lookup. apply lookup_lt_is_Some. lia. }
  assert (Hll : is_Some (last lows)).
  { rewrite last_lookup. apply lookup_lt_is_Some. lia. }
  destruct Hlh as [h Hh]. destruct Hll as [l Hl].
  assert (Hrow : l <= current /\ current <= h).
  { rewrite last_lookup in Hcur, Hh, Hl.
    rewrite Lc in Hcur. rewrite Lh in Hh. rewrite Ll in Hl.
    by apply (Hrange (pred (df_len data))). }
  pose proof (Hhi h (last_in_window highs h Hh)).
  pose proof (Hlo l (last_in_window lows l Hl)).
  eexists _, hi, lo. split; [exact Hrun|]. cbn [high_24h low_24h current_price].
  split; [by destruct (decide (24 <= length highs)%nat)|].
  split; [by destruct (decide (24 <= length lows)%nat)|].
  split; lra.
Qed.

Lemma kpi_metrics_price_within_range_witness :
  df_wf (flat_frame [100; 110; 90]) /\ (1 <= df_len (flat_frame [100%Q; 110%Q; 90%Q]))%nat /\
  df_columns (flat_frame [100; 110; 90]) !! "Close"%string = Some [100; 110; 90] /\
  df_columns (flat_frame [100; 110; 90]) !! "High"%string = Some [100; 110; 90] /\
  df_columns (flat_frame [100; 110; 90]) !! "Low"%string = Some [100; 110; 90] /\
  close_within_range [100; 110; 90] [100; 110; 90] [100; 110; 90] /\
  exists m hi lo,
    kpi_metrics (flat_frame [100; 110; 90]) = Some m /\
    high_24h m = Some hi /\ low_24h m = Some lo /\
    lo <= current_price m /\ current_price m <= hi.
Proof.
  assert (Hrange : close_within_range [100; 110; 90] [100; 110; 90] [100; 110; 90]).
  { intros i l c h Hl Hc Hh. rewrite Hl in Hc, Hh.
    injection Hc as <-. injection Hh as <-. split; lra. }
  split; [apply flat_frame_wf|]. split; [cbn; lia|]. split; [reflexivity|].
  split; [reflexivity|]. split; [reflexivity|]. split; [exact Hrange|].
  apply (kpi_metrics_price_within_range (flat_frame [100; 110; 90])
           [100; 110; 90] [100; 110; 90] [100; 110; 90]).
  - apply flat_frame_wf.
  - cbn. lia.
  - reflexivity.
  - reflexivity.
  - reflexivity.
  - exact Hrange.
Defined.

Lemma kpi_metrics_pct (data : DataFrame) (m : Metrics) :
  kpi_metrics data = Some m ->
  price_change m = current_price m - previous_price m /\
  price_change_pct m =
    if negb (Qeq_bool (previous_price m) 0)
    then (current_price m - previous_price m) / previous_price m * 100 else 0.
Proof.
  unfold kpi_metrics. intros Hm.
  destruct (df_columns data !! "Close"%string) as [closes|]; [|discriminate].
  cbn [mbind option_bind] in Hm.
  destruct (iloc_neg closes 1) as [current|]; [|discriminate].
  cbn [mbind option_bind] in Hm.
  destruct (if decide (1 < df_len data)%nat then iloc_neg closes 2 else Some current)
    as [previous|]; [|discriminate].
  cbn [mbind option_bind] in Hm.
  destruct (df_columns data !! "High"%string) as [highs|]; [|discriminate].
  cbn [mbind option_bind] in Hm.
  destruct (df_columns data !! "Low"%string) as [lows|]; [|discriminate].
  cbn [mbind option_bind] in Hm. by injection Hm as <-.
Qed.

(** X15: the change indicator is green exactly when the current price is
    above a positive previous price; it is red when the price is unchanged
    and red when the previous price is zero. *)
Theorem change_color_spec (data : DataFrame) (m : Metrics) :
  kpi_metrics data = Some m ->
  (0 < previous_price m ->
   (change_color (price_change_pct m) = Green <-> previous_price m < current_price m)) /\
  (current_price m == previous_price m -> change_color (price_change_pct m) = Red) /\
  (previous_price m == 0 -> change_color (price_change_pct m) = Red).
Proof.
  intros Hm. destruct (kpi_metrics_pct data m Hm) as [_ Hpct]. rewrite Hpct.
  set (c := current_price m). set (p := previous_price m).
  assert (Hgreen : forall x, change_color x = Green <-> 0 < x).
  { intros x. unfold change_color. destruct (Qltb 0 x) eqn:E.
    - apply Qltb_lt in E. done.
    - apply Qltb_ge in E. split; [discriminate|lra]. }
  assert (Hred : forall x, x <= 0 -> change_color x = Red).
  { intros x Hx. destruct (change_color x) eqn:E; [|done]. apply Hgreen in E. lra. }
  split; [|split].
  - intros Hp. assert (E : Qeq_bool p 0 = false).
    { destruct (Qeq_bool p 0) eqn:E; [|done]. apply Qeq_bool_iff in E. lra. }
    rewrite E. cbn [negb]. rewrite Hgreen.
    assert (Hk : 0 < / p) by (by apply Qinv_lt_0_compat).
    unfold Qdiv. generalize dependent (/ p). intros k Hk. split; intros H; nra.
  - intros Heq. apply Hred. destruct (Qeq_bool p 0) eqn:E; cbn [negb]; [lra|].
    apply Qeq_bool_neq in E.
    assert (Hz : (c - p) / p * 100 == 0) by (rewrite Heq; field; exact E). lra.
  - intros Hz. apply Qeq_bool_iff in Hz. rewrite Hz. cbn [negb]. apply Hred. lra.
Qed.

Lemma change_color_spec_witness :
  let m := {| current_price := 110; previous_price := 100; price_change := 110 - 100;
              price_change_pct := (110 - 100) / 100 * 100;
              high_24h := Some 110; low_24h := Some 100 |} in
  kpi_metrics (flat_frame [100; 110]) = Some m /\
  (0 < previous_price m ->
   (change_color (price_change_pct m) = Green <-> previous_price m < current_price m)) /\
  (current_price m == previous_price m -> change_color (price_change_pct m) = Red) /\
  (previous_price m == 0 -> change_color (price_change_pct m) = Red).
Proof.
  cbn zeta. split; [reflexivity|].
  apply (change_color_spec (flat_frame [100; 110])). reflexivity.
Defined.

Lemma tail_length {A} (n : nat) (s : list A) :
  (n <= length s)%nat -> length (tail n s) = n.
Proof. intros Hn. unfold tail. rewrite length_drop. lia. Qed.

Lemma tail_idemp {A} (n : nat) (s : list A) :
  (n <= length s)%nat -> tail n (tail n s) = tail n s.
Proof.
  intros Hn. unfold tail at 1. rewrite tail_length by done.
  by rewrite Nat.sub_diag.
Qed.

Lemma iloc_neg_tail {A} (n k : nat) (s : list A) :
  (k <= n)%nat -> (n <= length s)%nat -> iloc_neg (tail n s) k = iloc_neg s k.
Proof.
  intros Hk Hn. unfold iloc_neg. rewrite tail_length by done.
  rewrite !decide_True by lia. unfold tail. rewrite lookup_drop. f_equal. lia.
Qed.

Lemma kpi_metrics_recent (data : DataFrame) :
  df_wf data -> (24 <= df_len data)%nat ->
  kpi_metrics data =
    kpi_of_recent (tail 24 <$> df_columns data !! "Close"%string)
                  (tail 24 <$> df_columns data !! "High"%string)
                  (tail 24 <$> df_columns data !! "Low"%string).
Proof.
  intros Hwf Hlen. unfold kpi_metrics, kpi_of_recent.
  destruct (df_columns data !! "Close"%string) as [closes|] eqn:Hclose; [|done].
  cbn [fmap option_fmap option_map mbind option_bind].
  pose proof (Hwf _ _ Hclose) as Lc.
  rewrite !iloc_neg_tail by lia.
  destruct (iloc_neg closes 1) as [current|]; [|done]. cbn [mbind option_bind].
  rewrite decide_True by lia.
  destruct (iloc_neg closes 2) as [previous|]; [|done]. cbn [mbind option_bind].
  destruct (df_columns data !! "High"%string) as [highs|] eqn:Hhigh; [|done].
  cbn [fmap option_fmap option_map mbind option_bind].
  destruct (df_columns data !! "Low"%string) as [lows|] eqn:Hlow; [|done].
  cbn [fmap option_fmap option_map mbind option_bind].
  by rewrite !decide_True by lia.
Qed.

(** X16: the metrics look at the last 24 rows only: two frames of at least
    24 rows whose Close, High and Low columns agree on their last 24 entries
    (or are missing in both) give the same metrics, or raise alike. *)
Theorem kpi_metrics_last_24_rows (data1 data2 : DataFrame) :
  df_wf data1 -> df_wf data2 ->
  (24 <= df_len data1)%nat -> (24 <= df_len data2)%nat ->
  (forall col, col ∈ ["Close"; "High"; "Low"]%string ->
     tail 24 <$> df_columns data1 !! col = tail 24 <$> df_columns data2 !! col) ->
  kpi_metrics data1 = kpi_metrics data2.
Proof.
  intros Hwf1 Hwf2 Hlen1 Hlen2 Hcols.
  rewrite (kpi_metrics_recent data1), (kpi_metrics_recent data2) by done.
  rewrite (Hcols "Close"%string), (Hcols "High"%string), (Hcols "Low"%string);
    [done|..]; rewrite !elem_of_cons; tauto.
Qed.

Lemma kpi_metrics_last_24_rows_witness :
  df_wf (month_frame 7) /\ df_wf (month_frame 1000) /\
  (24 <= df_len (month_frame 7))%nat /\ (24 <= df_len (month_frame 1000))%nat /\
  (forall col, col ∈ ["Close"; "High"; "Low"]%string ->
     tail 24 <$> df_columns (month_frame 7) !! col =
     tail 24 <$> df_columns (month_frame 1000) !! col) /\
  kpi_metrics (month_frame 7) = kpi_metrics (month_frame 1000).
Proof.
  assert (Hcols : forall col, col ∈ ["Close"; "High"; "Low"]%string ->
     tail 24 <$> df_columns (month_frame 7) !! col =
     tail 24 <$> df_columns (month_frame 1000) !! col).
  { intros col Hcol. rewrite !elem_of_cons, elem_of_nil in Hcol.
    destruct Hcol as [->|[->|[->|[]]]]; reflexivity. }
  split; [apply flat_frame_wf|]. split; [apply flat_frame_wf|].
  split; [cbn; lia|]. split; [cbn; lia|]. split; [exact Hcols|].
  apply kpi_metrics_last_24_rows.
  - apply flat_frame_wf.
  - apply flat_frame_wf.
  - cbn. lia.
  - cbn. lia.
  - exact Hcols.
Defined.

(** ** Sentiment: colour and the fallback *)

Section SentimentMore.

Import Sentiment.

Lemma get_sentiment_label (c : Chance) :
  s_label (get_sentiment c) = label_of (score (get_sentiment c)).
Proof.
  unfold get_sentiment. destruct (analyse c) as [r|] eqn:E; [|reflexivity].
  unfold analyse in E.
  destruct (random_sample c mock_headlines (randint c 3 5)) as [selected|]; [|discriminate].
  cbn [mbind option_bind] in E.
  destruct (mapM (polarity c) selected) as [scores|]; [|discriminate].
  cbn [mbind option_bind] in E.
  destruct (average scores) as [avg|]; [|discriminate].
  cbn [mbind option_bind] in E. by injection E as <-.
Qed.

(** X17: the colour [main] gives the sentiment score always agrees with the
    label [get_sentiment] returned: green for BULLISH, red for BEARISH, gold
    for NEUTRAL, on the fallback path as well. *)
Theorem sentiment_color_matches_label (c : Chance) :
  let r := get_sentiment c in
  (sentiment_color (score r) = "#06FFA5"%string <-> s_label r = BULLISH) /\
  (sentiment_color (score r) = "#FF0040"%string <-> s_label r = BEARISH) /\
  (sentiment_color (score r) = "#FFD700"%string <-> s_label r = NEUTRAL).
Proof.
  intros r. subst r. rewrite get_sentiment_label.
  generalize (score (get_sentiment c)). intros x.
  unfold sentiment_color, label_of.
  destruct (Qle_bool 60 x) eqn:E60.
  - repeat split; done.
  - assert (Hx : x < 60).
    { apply Qnot_le_lt. intros H. apply Qle_bool_iff in H. congruence. }
    destruct (Qltb x 40) eqn:E40.
    + apply Qltb_lt in E40.
      assert (E : Qle_bool 40 x = false).
      { destruct (Qle_bool 40 x) eqn:E; [|done]. apply Qle_bool_iff in E. lra. }
      rewrite E. repeat split; done.
    + apply Qltb_ge in E40. apply Qle_bool_iff in E40. rewrite E40. repeat split; done.
Qed.

(** X19: with [random.randint] and [random.sample] behaving as documented,
    [get_sentiment] returns the fallback (no headlines) exactly when TextBlob
    raises on one of the sampled headlines: one failing headline discards the
    whole sample. *)
Theorem get_sentiment_fallback_iff (c : Chance) :
  randint_in_range c -> sample_without_replacement c ->
  (headlines (get_sentiment c) = [] <->
   exists i h, i ∈ sampled_positions c /\ mock_headlines !! i = Some h /\
               polarity c h = None) /\
  (headlines (get_sentiment c) = [] -> get_sentiment c = fallback).
Proof.
  intros Hrand Hsample.
  pose proof (Hrand 3%Z 5%Z ltac:(lia)) as Hk.
  destruct (Hsample (length mock_headlines) (Z.to_nat (randint c 3 5)))
    as (Hlen & _ & Hlt); [cbn; lia|].
  assert (Hsel : exists selected,
            random_sample c mock_headlines (randint c 3 5) = Some selected /\
            Forall2 (fun i h => mock_headlines !! i = Some h) (sampled_positions c) selected).
  { unfold random_sample. rewrite decide_True by (cbn; lia).
    destruct (mapM (fun i => mock_headlines !! i)
                (sample_positions c (length mock_headlines) (Z.to_nat (randint c 3 5))))
      as [selected|] eqn:E.
    - exists selected. split; [done|]. by apply mapM_Some in E.
    - apply mapM_None_Exists in E. apply Exists_exists in E as (i & Hi & Hnone).
      rewrite Forall_forall in Hlt. specialize (Hlt i Hi).
      apply lookup_ge_None in Hnone. lia. }
  destruct Hsel as (selected & Hrs & Hpos).
  assert (Hselected : (3 <= length selected)%nat).
  { apply Forall2_length in Hpos. unfold sampled_positions in Hpos. lia. }
  unfold get_sentiment, analyse. rewrite Hrs. cbn [mbind option_bind].
  destruct (mapM (polarity c) selected) as [scores|] eqn:Es; cbn [mbind option_bind].
  - assert (Hsc : length scores = length selected).
    { apply mapM_Some in Es. symmetry. by eapply Forall2_length. }
    unfold average. rewrite decide_False by lia. cbn [mbind option_bind headlines].
    split; [|intros ->; cbn in Hselected; lia].
    split; [intros ->; cbn in Hselected; lia|].
    intros (i & h & Hi & Hh & Hnone). exfalso.
    apply list_elem_of_lookup in Hi as [j Hj].
    destruct (Forall2_lookup_l _ _ _ _ _ Hpos Hj) as (h' & Hh' & Hih).
    rewrite Hh in Hih. injection Hih as <-.
    apply mapM_Some in Es.
    destruct (Forall2_lookup_l _ _ _ _ _ Es Hh') as (p & _ & Hp). congruence.
  - cbn [fallback headlines]. split; [|done]. split; [|done]. intros _.
    apply mapM_None_Exists in Es. apply Exists_exists in Es as (h & Hin & Hnone).
    apply list_elem_of_lookup in Hin as [j Hj].
    destruct (Forall2_lookup_r _ _ _ _ _ Hpos Hj) as (i & Hi & Hih).
    exists i, h. split; [|done]. apply list_elem_of_lookup. eauto.
Qed.

Lemma get_sentiment_fallback_iff_witness :
  randint_in_range broken /\ sample_without_replacement broken /\
  (headlines (get_sentiment broken) = [] <->
   exists i h, i ∈ sampled_positions broken /\ mock_headlines !! i = Some h /\
               polarity broken h = None) /\
  (headlines (get_sentiment broken) = [] -> get_sentiment broken = fallback).
Proof.
  split; [exact steady_randint|]. split; [exact steady_sample|].
  exact (get_sentiment_fallback_iff broken steady_randint steady_sample).
Defined.

End SentimentMore.

(** ** Auto-refresh *)

Lemma py_int_nonneg (x : Q) :
  0 <= x -> (0 <= py_int x)%Z /\ inject_Z (py_int x) <= x.
Proof.
  destruct x as [n d]. unfold py_int, Qle. cbn. intros Hn.
  assert (0 <= n)%Z by lia.
  rewrite Z.quot_div_nonneg by lia. split.
  - apply Z.div_pos; lia.
  - rewrite Z.mul_1_r, Z.mul_comm. apply Z.mul_div_le. lia.
Qed.

Lemma auto_refresh_run (time_time : nat -> Q) (refresh_option : string) (st : RefreshState) :
  let last := default (time_time (time_calls st)) (last_refresh st) in
  let calls := match last_refresh st with
               | Some _ => time_calls st
               | None => S (time_calls st)
               end in
  auto_refresh time_time true refresh_option st =
    if Qle_bool (refresh_seconds refresh_option) (time_time calls - last)
    then (RefreshRerun, {| last_refresh := Some (time_time calls); time_calls := S calls |})
    else (CountdownRerun (py_int (refresh_seconds refresh_option - (time_time calls - last))),
          {| last_refresh := Some last; time_calls := S calls |}).
Proof. unfold auto_refresh. by destruct (last_refresh st). Qed.


(** X21: when [time.time()] never runs backwards and the stamp in the
    session state is not in the future, the countdown shown is between 0 and
    [refresh_sec], and the stamp left behind is again not in the future. *)
Theorem auto_refresh_countdown_bounds
    (time_time : nat -> Q) (refresh_option : string) (st : RefreshState) :
  time_monotone time_time -> stamp_in_past time_time st ->
  let r := auto_refresh time_time true refresh_option st in
  stamp_in_past time_time (snd r) /\
  forall remaining, fst r = CountdownRerun remaining ->
    (0 <= remaining)%Z /\ inject_Z remaining <= refresh_seconds refresh_option.
Proof.
  intros Hmono Hpast r. subst r. rewrite auto_refresh_run. cbn zeta.
  set (calls := match last_refresh st with Some _ => _ | None => _ end).
  set (last := default _ _).
  assert (Hlast : last <= time_time calls).
  { subst last calls. destruct (last_refresh st) as [l|] eqn:El.
    - cbn. by apply Hpast.
    - cbn. apply Hmono. lia. }
  assert (Hnext : time_time calls <= time_time (S calls)) by (apply Hmono; lia).
  destruct (Qle_bool _ _) eqn:E; cbn [fst snd].
  - split; [|discriminate]. intros l [= <-]. cbn. exact Hnext.
  - split. { intros l [= <-]. cbn. lra. }
    intros remaining [= <-].
    assert (Hlt : time_time calls - last < refresh_seconds refresh_option).
    { apply Qnot_le_lt. intros H. apply Qle_bool_iff in H. congruence. }
    destruct (py_int_nonneg (refresh_seconds refresh_option - (time_time calls - last)))
      as [H0 Hle]; [lra|].
    split; [exact H0|]. lra.
Qed.

Lemma quarter_seconds_monotone : time_monotone quarter_seconds.
Proof.
  intros n m Hnm. unfold quarter_seconds, Qdiv.
  apply Qmult_le_compat_r; [|discriminate].
  rewrite <- Zle_Qle. lia.
Qed.

Lemma stamped_in_past : stamp_in_past quarter_seconds stamped.
Proof. intros last [= <-]. vm_compute. discriminate. Qed.

Lemma auto_refresh_countdown_bounds_witness :
  time_monotone quarter_seconds /\ stamp_in_past quarter_seconds stamped /\
  let r := auto_refresh quarter_seconds true "30s" stamped in
  stamp_in_past quarter_seconds (snd r) /\
  forall remaining, fst r = CountdownRerun remaining ->
    (0 <= remaining)%Z /\ inject_Z remaining <= refresh_seconds "30s".
Proof.
  split; [exact quarter_seconds_monotone|]. split; [exact stamped_in_past|].
  exact (auto_refresh_countdown_bounds quarter_seconds "30s" stamped
           quarter_seconds_monotone stamped_in_past).
Defined.

(** A later run of the same session: the stamp found is two seconds old, so
    the countdown shows 28 and the stamp is kept. *)
Example auto_refresh_stamped_run :
  auto_refresh quarter_seconds true "30s" stamped =
    (CountdownRerun 28, {| last_refresh := Some 0; time_calls := 9 |}).
Proof. reflexivity. Qed.

(** The first run with auto-refresh enabled and a 30 s interval, on a clock
    that advances a quarter of a second per reading: a countdown of 29. *)
Example auto_refresh_first_run :
  auto_refresh quarter_seconds true "30s" {| last_refresh := None; time_calls := 0 |} =
    (CountdownRerun 29, {| last_refresh := Some (quarter_seconds 0); time_calls := 2 |}).
Proof. reflexivity. Qed.
